(** * The SAML response validator of package sso (validate.go)

    A shallow embedding of [NewValidator], [ValidateResponse],
    [ValidateSignature], [validateSignature] and
    [validateAssertionSignature], and the properties of them that the
    specification states.

    Go values are embedded as follows.
    - A function returning [(T, error)] with the usual convention (exactly
      one of the two is nil) returns a [res].  [ValidateSignature] and
      [NewValidator] return a pair of nilable values, because the pair is
      what their callers test.
    - An [error] interface value is an [option error]; [None] is [nil].
    - A call that panics (failed type assertion, nil dereference) is the
      outcome [Panics].
    - The imported packages (encoding/base64, encoding/xml, crypto/x509,
      time, etree's parser and printer, goxmldsig and its etreeutils) are
      the fields of the class [Libraries]: every statement below holds for
      whatever these functions compute.  What the traversal of the element
      tree and the mutation of the root element do is written out, because
      the properties depend on it. *)

From Stdlib Require Import String List ZArith NArith Bool Lia.
From Stdlib Require Import DecimalString DecimalN DecimalZ.
Import ListNotations.
Open Scope string_scope.

Set Implicit Arguments.

(** ** Results and outcomes *)

Inductive res (E A : Type) : Type :=
| Ok (a : A)
| Err (e : E).
Arguments Ok {E A} a.
Arguments Err {E A} e.

Inductive outcome (A : Type) : Type :=
| Returns (a : A)
| Panics.
Arguments Returns {A} a.
Arguments Panics {A}.

(** [[]byte] *)
Definition bytes := string.

(** ** Errors: github.com/pkg/errors and the sentinels of goxmldsig *)

Module errors.

Inductive error : Type :=
| Fundamental (msg : string)
| WithMessage (cause : error) (msg : string)
| External (msg : string)
| ErrMissingSignature
| ErrTraversalHalted.

(** [errors.New(msg)] *)
Definition New (msg : string) : error := Fundamental msg.

(** [errors.Errorf(format, arg)] for a format that ends in its one [%s]. *)
Definition Errorf (format arg : string) : error := Fundamental (format ++ arg).

(** [errors.Wrap(err, msg)]: nil when [err] is nil. *)
Definition Wrap (err : option error) (msg : string) : option error :=
  match err with
  | None => None
  | Some cause => Some (WithMessage cause msg)
  end.

End errors.
Import errors.

(** ** time *)

(** A [time.Time] is the instant it denotes, in nanoseconds. *)
Definition Time := Z.

(** [t.After(u)] *)
Definition After (t u : Time) : bool := (u <? t)%Z.

(** [t.Before(u)] *)
Definition Before (t u : Time) : bool := (t <? u)%Z.

(** ** github.com/russellhaering/goxmldsig *)

Module dsig.

(** What [ValidationContext.Validate] fails with.  The comparison
    [err == dsig.ErrMissingSignature] is a match on [MissingSignature];
    every other failure of the library (digest mismatch, untrusted
    certificate, malformed signature, missing ID attribute) is an
    [InvalidSignature].  The library never hands out etreeutils'
    [ErrTraversalHalted]: its own calls of [NSFindIterate] swallow it. *)
Inductive validation_error : Type :=
| MissingSignature
| InvalidSignature (msg : string).

Definition as_error (e : validation_error) : error :=
  match e with
  | MissingSignature => ErrMissingSignature
  | InvalidSignature msg => External msg
  end.

(** [*dsig.Clock]: the real clock, or a fake clock set to an instant. *)
Inductive Clock : Type :=
| RealClock
| FakeClockAt (t : Time).

(** [dsig.MemoryX509CertificateStore] and [dsig.ValidationContext], for
    certificates of type [Certificate]. *)
Record MemoryX509CertificateStore (Certificate : Type) : Type :=
  mkStore { Roots : list Certificate }.

Record ValidationContext (Certificate : Type) : Type := mkContext
  { CertificateStore : MemoryX509CertificateStore Certificate;
    ctx_Clock : option Clock }.

(** [dsig.NewDefaultValidationContext(store)] *)
Definition NewDefaultValidationContext {Certificate : Type}
    (store : MemoryX509CertificateStore Certificate)
    : ValidationContext Certificate :=
  mkContext store None.

End dsig.

(** ** github.com/beevik/etree *)

Module etree.

Record Attr : Type := mkAttr
  { attr_Space : string; attr_Key : string; attr_Value : string }.

#[local] Unset Elimination Schemes.
Inductive Element : Type :=
| mkElement (space tag : string) (attrs : list Attr) (child : list Token)
with Token : Type :=
| TokElement (e : Element)
| TokCharData (data : string)
| TokComment (data : string)
| TokDirective (data : string)
| TokProcInst (target inst : string).
#[local] Set Elimination Schemes.

Definition Space (e : Element) : string :=
  match e with mkElement space _ _ _ => space end.
Definition Tag (e : Element) : string :=
  match e with mkElement _ tag _ _ => tag end.
Definition Attrs (e : Element) : list Attr :=
  match e with mkElement _ _ attrs _ => attrs end.
Definition Child (e : Element) : list Token :=
  match e with mkElement _ _ _ child => child end.

(** A [*Document] embeds an [Element] with an empty tag; its [Child]
    holds the prolog, the root element and what follows it. *)
Record Document : Type := mkDocument { doc_Child : list Token }.

(** [etree.NewDocument()] *)
Definition NewDocument : Document := mkDocument [].

(** The tag of the element embedded in a document. *)
Definition documentTag : string := "".

(** [d.Root()]: the first child that is an element, or nil. *)
Fixpoint firstElement (ts : list Token) : option Element :=
  match ts with
  | [] => None
  | TokElement e :: _ => Some e
  | _ :: rest => firstElement rest
  end.

Definition Root (d : Document) : option Element := firstElement (doc_Child d).

(** The document after its root element was written to in place: the
    first element among the children now has the value [e]. *)
Fixpoint storeRoot (ts : list Token) (e : Element) : list Token :=
  match ts with
  | [] => []
  | TokElement _ :: rest => TokElement e :: rest
  | t :: rest => t :: storeRoot rest e
  end.

(** [d.RemoveChild(d.Root())] *)
Fixpoint removeRoot (ts : list Token) : list Token :=
  match ts with
  | [] => []
  | TokElement _ :: rest => rest
  | t :: rest => t :: removeRoot rest
  end.

(** The second half of [d.SetRoot(e)], once [e] is unbound: [e] takes
    the place of the first element, or is appended when there is none. *)
Fixpoint placeRoot (ts : list Token) (e : Element) : list Token :=
  match ts with
  | [] => [TokElement e]
  | TokElement _ :: rest => TokElement e :: rest
  | t :: rest => t :: placeRoot rest e
  end.

(** Addresses of elements.  The elements of a parsed document are told
    apart by their place in it: the root is [PElement []], and the child
    at index [i] of the element at [p] is [PElement (i :: p)].
    [PDocument] is the element embedded in the document. *)
Inductive ptr : Type :=
| PDocument
| PElement (path : list nat).

Fixpoint path_eqb (a b : list nat) : bool :=
  match a, b with
  | [], [] => true
  | i :: a', j :: b' => Nat.eqb i j && path_eqb a' b'
  | _, _ => false
  end.

(** [p == q] on pointers *)
Definition ptr_eqb (p q : ptr) : bool :=
  match p, q with
  | PDocument, PDocument => true
  | PElement a, PElement b => path_eqb a b
  | _, _ => false
  end.

(** An element met during a traversal that started at the root of its
    document: where it is, the tag of its parent, and its value. *)
Record located : Type := mkLocated
  { path : list nat; parentTag : string; elem : Element }.

Definition addr (l : located) : ptr := PElement (path l).

(** [e.Parent()] *)
Definition Parent (l : located) : ptr :=
  match path l with
  | [] => PDocument
  | _ :: up => PElement up
  end.

(** The children of the root element while [validateAssertionSignature]
    runs.  The traversal mutates only this list. *)
Inductive child : Type :=
| Parsed (i : nat) (t : Token)
| Verified (e : Element).

Definition token_of (c : child) : Token :=
  match c with
  | Parsed _ t => t
  | Verified e => TokElement e
  end.

Definition tokens (cs : list child) : list Token := map token_of cs.

Fixpoint parsedFrom (i : nat) (ts : list Token) : list child :=
  match ts with
  | [] => []
  | t :: rest => Parsed i t :: parsedFrom (S i) rest
  end.

(** The children of a root element as the parser left them. *)
Definition parsed (e : Element) : list child := parsedFrom 0 (Child e).

Definition at_addr (p : ptr) (c : child) : bool :=
  match c with
  | Parsed i _ => ptr_eqb p (PElement [i])
  | Verified _ => false
  end.

(** [e.RemoveChild(t)]: the first child that is the token [t] (compared
    as a pointer) is taken out. *)
Fixpoint RemoveChild (cs : list child) (t : ptr) : list child :=
  match cs with
  | [] => []
  | c :: rest => if at_addr t c then rest else c :: RemoveChild rest t
  end.

(** [e.AddChild(t)] for an element [t] that has no parent. *)
Definition AddChild (cs : list child) (t : Element) : list child :=
  cs ++ [Verified t].

(** The root element with its current children. *)
Definition withChildren (e : Element) (cs : list child) : Element :=
  mkElement (Space e) (Tag e) (Attrs e) (tokens cs).

(** [Q] holds of every element among the tokens [ts]. *)
Fixpoint AllElements (Q : Element -> Prop) (ts : list Token) : Prop :=
  match ts with
  | [] => True
  | TokElement e :: rest => Q e /\ AllElements Q rest
  | _ :: rest => AllElements Q rest
  end.

Section Induction.

Variable Q : Element -> Prop.
Hypothesis step : forall space tag attrs children,
  AllElements Q children -> Q (mkElement space tag attrs children).

(** Induction on elements: the children may be assumed to satisfy [Q]. *)
Fixpoint Element_induction (e : Element) : Q e :=
  match e with
  | mkElement space tag attrs children =>
    step space tag attrs children
      ((fix all (ts : list Token) : AllElements Q ts :=
          match ts return AllElements Q ts with
          | [] => I
          | TokElement c :: rest => conj (Element_induction c) (all rest)
          | TokCharData _ :: rest => all rest
          | TokComment _ :: rest => all rest
          | TokDirective _ :: rest => all rest
          | TokProcInst _ _ :: rest => all rest
          end) children)
  end.

End Induction.

End etree.
Import etree.

(** ** github.com/russellhaering/gosaml2/types *)

Module gosamltypes.

(** [KeyDescriptor]; the field is [KeyInfo.X509Data.X509Certificate.Data]. *)
Record KeyDescriptor : Type := mkKeyDescriptor { X509CertificateData : string }.

(** [EntityDescriptor]; the field is [IDPSSODescriptor.KeyDescriptors]. *)
Record EntityDescriptor : Type := mkEntityDescriptor
  { KeyDescriptors : list KeyDescriptor }.

End gosamltypes.
Import gosamltypes.

(** ** Package sso: what validate.go uses and other files declare *)

(** Modelled from the spec: the struct [resp] is declared in another file
    of the package.  validate.go reads its field [response] (a pointer to
    a [Response], nil until one is stored); the spec lists the raw
    transport-encoded payload beside it. *)
Record resp (Response : Type) : Type := mkResp
  { response : option Response; rawResp : string }.

(** Modelled from the spec: the method [rawResponse] is declared in
    another file; it is the accessor of the raw transport-encoded payload. *)
Definition rawResponse {Response : Type} (info : resp Response) : string :=
  rawResp info.

(** Modelled from the spec: the method [setResponse] is declared in
    another file; it replaces the held structured Response and nothing
    else. *)
Definition setResponse {Response : Type} (info : resp Response)
    (val : Response) : resp Response :=
  mkResp (Some val) (rawResp info).

(** The declarations that validate.go takes from the rest of the package:
    the type [Response] with the two strings
    [Assertion.Conditions.NotBefore] and [Assertion.Conditions.NotOnOrAfter],
    the status constant [Success], and the methods [status],
    [statusDescription] and [UserID] of [*resp]. *)
Class Package : Type :=
  { Response : Type;
    NotBefore : Response -> string;
    NotOnOrAfter : Response -> string;
    Success : Z;
    status : resp Response -> res error Z;
    statusDescription : resp Response -> string;
    UserID : resp Response -> string }.

(** [kolide.Auth]: an interface value holds a [*resp] (taken to point to
    a [resp]), a value of another implementation (named by its type), or
    nothing. *)
Inductive Auth {P : Package} : Type :=
| AuthResp (info : resp Response)
| AuthOther (dynamicType : string)
| AuthNil.

(** ** The imported functions *)

Class Libraries {P : Package} : Type :=
  { (** [base64.StdEncoding.DecodeString] *)
    base64_DecodeString : string -> res string bytes;
    (** [xml.Unmarshal] into a [gosamltypes.EntityDescriptor] *)
    xml_Unmarshal_EntityDescriptor : bytes -> res string EntityDescriptor;
    (** [xml.Unmarshal] into a [Response] *)
    xml_Unmarshal_Response : bytes -> res string Response;
    (** [*x509.Certificate] and [x509.ParseCertificate] *)
    Certificate : Type;
    x509_ParseCertificate : bytes -> res string Certificate;
    (** [time.Parse(time.RFC3339, _)] *)
    time_Parse_RFC3339 : string -> res string Time;
    (** what the real clock reads when it is asked *)
    time_Now : Time;
    (** [doc.ReadFromBytes] on a new document, [doc.WriteToBytes] *)
    ReadFromBytes : bytes -> res string Document;
    WriteToBytes : Document -> res string bytes;
    (** [etreeutils.NSContext] *)
    NSContext : Type;
    DefaultNSContext : NSContext;
    SubContext : NSContext -> Element -> res string NSContext;
    LookupPrefix : NSContext -> string -> res string string;
    (** [etreeutils.NSDetatch]: a copy of the element that declares the
        namespaces of its context *)
    NSDetatch : NSContext -> Element -> res string Element;
    (** [ctx.Validate(el)]: on success a new element, the validated copy *)
    Validate : dsig.ValidationContext Certificate -> Element ->
               res dsig.validation_error Element }.

(** ** etreeutils: the traversal *)

Section Traversal.

Context {P : Package} {L : Libraries}.

(** The state the handler's closure writes to. *)
Variable St : Type.

(** [etreeutils.NSIterHandler]: the error it returns, and the state it
    leaves behind. *)
Definition NSIterHandler : Type := NSContext -> located -> St -> option error * St.

(** [etreeutils.NSTraverse]: the handler runs on the element, then the
    traversal descends into [el.ChildElements()] in order, and stops at
    the first error.  The slice of children is built before the loop, so
    the loop walks the children the element had; the index counts all
    tokens. *)
Fixpoint NSTraverse (ctx : NSContext) (at_ : list nat) (up : string)
    (el : Element) (handle : NSIterHandler) (st : St) : option error * St :=
  match SubContext ctx el with
  | Err msg => (Some (External msg), st)
  | Ok ctx' =>
    match handle ctx' (mkLocated at_ up el) st with
    | (Some err, st') => (Some err, st')
    | (None, st') =>
      match el with
      | mkElement _ tag _ children =>
        (fix loop (ts : list Token) (i : nat) (st : St) : option error * St :=
           match ts with
           | [] => (None, st)
           | TokElement child :: rest =>
             match NSTraverse ctx' (i :: at_) tag child handle st with
             | (Some err, st') => (Some err, st')
             | (None, st') => loop rest (S i) st'
             end
           | _ :: rest => loop rest (S i) st
           end) children 0 st'
      end
    end
  end.

(** The loop of [NSTraverse] over the children from index [i] on. *)
Fixpoint NSTraverse_children (ctx : NSContext) (at_ : list nat) (up : string)
    (ts : list Token) (i : nat) (handle : NSIterHandler) (st : St)
    : option error * St :=
  match ts with
  | [] => (None, st)
  | TokElement child :: rest =>
    match NSTraverse ctx (i :: at_) up child handle st with
    | (Some err, st') => (Some err, st')
    | (None, st') =>
        NSTraverse_children ctx at_ up rest (S i) handle st'
    end
  | _ :: rest => NSTraverse_children ctx at_ up rest (S i) handle st
  end.

(** The function [NSFindIterate] hands to [NSTraverse]. *)
Definition findHandler (namespace tag : string) (handle : NSIterHandler)
    : NSIterHandler :=
  fun ctx el st =>
    match LookupPrefix ctx (Space (elem el)) with
    | Err msg => (Some (External msg), st)
    | Ok currentNS =>
      if (currentNS =? namespace) && (Tag (elem el) =? tag)
      then handle ctx el st
      else (None, st)
    end.

(** [etreeutils.NSFindIterate], on the root element of a document. *)
Definition NSFindIterate (el : Element) (namespace tag : string)
    (handle : NSIterHandler) (st : St) : option error * St :=
  match NSTraverse DefaultNSContext [] documentTag el
          (findHandler namespace tag handle) st with
  | (Some ErrTraversalHalted, st') => (None, st')
  | (err, st') => (err, st')
  end.

End Traversal.

(** ** validate.go *)

Section Validator.

Context {P : Package} {L : Libraries}.

(** [type validator struct] *)
Record validator : Type := mkValidator
  { context : option (dsig.ValidationContext Certificate);
    clock : option dsig.Clock;
    metadata : EntityDescriptor }.

(** [func Clock(clock *dsig.Clock) func(v *validator)] *)
Definition Clock (c : option dsig.Clock) : validator -> validator :=
  fun v => mkValidator (context v) c (metadata v).

(** [c.Now()] on a [*dsig.Clock]; a nil clock reads the real one. *)
Definition Now (c : option dsig.Clock) : Time :=
  match c with
  | Some (dsig.FakeClockAt t) => t
  | _ => time_Now
  end.

(** The first loop of [NewValidator]: the roots collected so far, then
    either all roots or the pair the function returns early. *)
Fixpoint collectRoots (keys : list KeyDescriptor) (roots : list Certificate)
    : res (option validator * option error) (list Certificate) :=
  match keys with
  | [] => Ok roots
  | key :: rest =>
    match base64_DecodeString (X509CertificateData key) with
    | Err msg => Err (None, Wrap (Some (External msg)) "decoding idp x509 cert")
    | Ok certData =>
      match x509_ParseCertificate certData with
      | Err msg => Err (None, Wrap (Some (External msg)) "parsing idp x509 cert")
      | Ok cert => collectRoots rest (roots ++ [cert])
      end
    end
  end.

Definition NewValidator (metadataXML : string)
    (opts : list (validator -> validator)) : option validator * option error :=
  match xml_Unmarshal_EntityDescriptor metadataXML with
  | Err msg => (None, Wrap (Some (External msg)) "unmarshalling metadata")
  | Ok md =>
    let v := mkValidator None None md in
    match collectRoots (KeyDescriptors md) [] with
    | Err early => early
    | Ok roots =>
      let idpCertStore := dsig.mkStore roots in
      let v := fold_left (fun v opt => opt v) opts v in
      let v := match clock v with
               | None => mkValidator (context v) (Some dsig.RealClock) (metadata v)
               | Some _ => v
               end in
      let ctx := dsig.NewDefaultValidationContext idpCertStore in
      let ctx := dsig.mkContext (dsig.CertificateStore ctx) (clock v) in
      (Some (mkValidator (Some ctx) (clock v) (metadata v)), None)
    end
  end.

Definition ValidateResponse (v : validator) (auth : Auth)
    : outcome (option error) :=
  match auth with
  | AuthResp info =>
    match response info with
    | None => Panics
    | Some r =>
      match time_Parse_RFC3339 (NotOnOrAfter r) with
      | Err msg =>
          Returns (Wrap (Some (External msg)) "missing timestamp from condition")
      | Ok onOrAfter =>
        match time_Parse_RFC3339 (NotBefore r) with
        | Err msg =>
            Returns (Wrap (Some (External msg)) "missing timestamp from condition")
        | Ok notBefore =>
          let currentTime := Now (clock v) in
          if After currentTime onOrAfter then
            Returns (Some (New "response expired"))
          else if Before currentTime notBefore then
            Returns (Some (New "response too early"))
          else if UserID info =? "" then
            Returns (Some (New "missing user id"))
          else Returns None
        end
      end
    end
  | _ => Panics
  end.

(** The element that [elt] points to throughout [ValidateSignature]:
    the root of the parsed document. *)
Definition eltAddr : ptr := PElement [].

(** The closure [validateAssertion] of [validateAssertionSignature]; the
    state is the list of children of [elt]. *)
Definition validateAssertion (ctx : dsig.ValidationContext Certificate)
    : NSIterHandler (list child) :=
  fun nsctx unverified children =>
    if negb (ptr_eqb (Parent unverified) eltAddr) then
      (Some (Errorf "assertion with unexpected parent: " (parentTag unverified)),
       children)
    else
      match NSDetatch nsctx (elem unverified) with
      | Err msg => (Some (External msg), children)
      | Ok detached =>
        match Validate ctx detached with
        | Err e => (Some (dsig.as_error e), children)
        | Ok signed =>
            (None, AddChild (RemoveChild children (addr unverified)) signed)
        end
      end.

Definition samlAssertionNS : string := "urn:oasis:names:tc:SAML:2.0:assertion".

(** Returns the error and the children [elt] has when the call returns. *)
Definition validateAssertionSignature
    (ctx : dsig.ValidationContext Certificate) (elt : Element)
    : option error * list child :=
  NSFindIterate elt samlAssertionNS "Assertion" (validateAssertion ctx)
    (parsed elt).

(** The [*etree.Element] that [validateSignature] returns: [elt] itself,
    or the new element that [Validate] made. *)
Inductive signedRef : Type :=
| SameAsElt
| ValidatedCopy (validated : Element).

(** Returns the pair of the source, and the children [elt] has when the
    call returns. *)
Definition validateSignature (ctx : dsig.ValidationContext Certificate)
    (elt : Element) : res error signedRef * list child :=
  match Validate ctx elt with
  | Ok validated => (Ok (ValidatedCopy validated), parsed elt)
  | Err dsig.MissingSignature =>
    match validateAssertionSignature ctx elt with
    | (Some err, children) => (Err err, children)
    | (None, children) => (Ok SameAsElt, children)
    end
  | Err e => (Err (dsig.as_error e), parsed elt)
  end.

(** [signedDoc.SetRoot(signed)] on the new document [signedDoc], with its
    effect on [doc]: per etree, an element bound to another document is
    unbound from it first.  [doc] is given with the current value of its
    root.  Returns [(signedDoc, doc)]. *)
Definition SetRoot (signedDoc doc : Document) (signed : signedRef)
    : Document * Document :=
  match signed with
  | SameAsElt =>
    match Root doc with
    | Some elt =>
        (mkDocument (placeRoot (doc_Child signedDoc) elt),
         mkDocument (removeRoot (doc_Child doc)))
    | None => (signedDoc, doc)
    end
  | ValidatedCopy validated =>
      (mkDocument (placeRoot (doc_Child signedDoc) validated), doc)
  end.

(** What a call of [ValidateSignature] returns: the two results, and the
    [resp] that the argument points to as the call leaves it. *)
Record signatureResult : Type := mkResult
  { ret_auth : option Auth; ret_err : option error; info_after : resp Response }.

Definition ValidateSignature (v : validator) (auth : Auth)
    : outcome signatureResult :=
  match auth with
  | AuthResp info =>
    match status info with
    | Err _ =>
        Returns (mkResult None (Some (New "missing or malformed response")) info)
    | Ok st =>
      if negb (st =? Success)%Z then
        Returns (mkResult None
                   (Some (Errorf "response status " (statusDescription info)))
                   info)
      else
        match base64_DecodeString (rawResponse info) with
        | Err msg =>
            Returns (mkResult None
                       (Wrap (Some (External msg)) "based64 decoding response")
                       info)
        | Ok decoded =>
          match ReadFromBytes decoded with
          | Err msg =>
              Returns (mkResult None
                         (Wrap (Some (External msg)) "parsing xml response")
                         info)
          | Ok doc =>
            match Root doc with
            | None =>
                (* err == nil and doc.Root() == nil *)
                Returns (mkResult None (Wrap None "parsing xml response") info)
            | Some elt =>
              match context v with
              | None => Panics
              | Some ctx =>
                match validateSignature ctx elt with
                | (Err err, _) =>
                    Returns (mkResult None
                               (Wrap (Some err) "signing verification failed")
                               info)
                | (Ok signed, children) =>
                  let doc :=
                    mkDocument (storeRoot (doc_Child doc)
                                  (withChildren elt children)) in
                  let (signedDoc, doc) := SetRoot NewDocument doc signed in
                  match WriteToBytes doc with
                  | Err msg =>
                      Returns (mkResult None
                                 (Wrap (Some (External msg))
                                    "creating signed doc buffer")
                                 info)
                  | Ok buffer =>
                    match xml_Unmarshal_Response buffer with
                    | Err msg =>
                        Returns (mkResult None
                                   (Wrap (Some (External msg))
                                      "unmarshalling signed doc")
                                   info)
                    | Ok response =>
                        let info := setResponse info response in
                        Returns (mkResult (Some (AuthResp info)) None info)
                    end
                  end
                end
              end
            end
          end
        end
    end
  | _ => Panics
  end.

(** The document [signedDoc] that [ValidateSignature] builds from the
    verified element and never reads: what it holds once [SetRoot] ran,
    for a document [doc] whose root has the children [children]. *)
Definition signedDocOf (doc : Document) (elt : Element)
    (signed : signedRef) (children : list child) : Document :=
  fst (SetRoot NewDocument
         (mkDocument (storeRoot (doc_Child doc) (withChildren elt children)))
         signed).

End Validator.

(** ** Document order *)

Section DocumentOrder.

Context {P : Package} {L : Libraries}.

(** What the traversal meets, in the order it meets it: an element
    with its namespace context, or the failure to build that context
    (the traversal ends there). *)
Inductive event : Type :=
| Visit (nsctx : NSContext) (el : located)
| NsFailure (msg : string).

Fixpoint events (ctx : NSContext) (at_ : list nat) (up : string)
    (el : Element) : list event :=
  match SubContext ctx el with
  | Err msg => [NsFailure msg]
  | Ok ctx' =>
    Visit ctx' (mkLocated at_ up el) ::
    match el with
    | mkElement _ tag _ children =>
      (fix loop (ts : list Token) (i : nat) : list event :=
         match ts with
         | [] => []
         | TokElement child :: rest =>
             (events ctx' (i :: at_) tag child ++ loop rest (S i))%list
         | _ :: rest => loop rest (S i)
         end) children 0
    end
  end.

Fixpoint events_children (ctx : NSContext) (at_ : list nat) (up : string)
    (ts : list Token) (i : nat) : list event :=
  match ts with
  | [] => []
  | TokElement child :: rest =>
      (events ctx (i :: at_) up child ++
       events_children ctx at_ up rest (S i))%list
  | _ :: rest => events_children ctx at_ up rest (S i)
  end.

(** The events of the traversal that [NSFindIterate] starts at the root
    element of a document. *)
Definition documentOrder (elt : Element) : list event :=
  events DefaultNSContext [] documentTag elt.

Variable St : Type.

(** A handler run over events until the first error. *)
Fixpoint run (handle : NSIterHandler St) (evs : list event) (st : St)
    : option error * St :=
  match evs with
  | [] => (None, st)
  | NsFailure msg :: _ => (Some (External msg), st)
  | Visit nsctx el :: rest =>
    match handle nsctx el st with
    | (Some err, st') => (Some err, st')
    | (None, st') => run handle rest st'
    end
  end.

End DocumentOrder.

(** What the handler of [validateAssertionSignature] answers at an event,
    whatever the children of the root are at that moment. *)
Definition verdict {P : Package} {L : Libraries}
    (ctx : dsig.ValidationContext Certificate) (ev : event) : option error :=
  match ev with
  | NsFailure msg => Some (External msg)
  | Visit nsctx el =>
    fst (findHandler samlAssertionNS "Assertion" (validateAssertion ctx)
           nsctx el [])
  end.

(** An element in the SAML assertion namespace with local name Assertion. *)
Definition isAssertion {P : Package} {L : Libraries}
    (nsctx : NSContext) (el : located) : Prop :=
  LookupPrefix nsctx (Space (elem el)) = Ok samlAssertionNS /\
  Tag (elem el) = "Assertion".

(** The answer at the first event, in order, where the handler answers
    with an error. *)
Fixpoint firstError {P : Package} {L : Libraries}
    (ctx : dsig.ValidationContext Certificate) (evs : list event)
    : option error :=
  match evs with
  | [] => None
  | ev :: rest =>
    match verdict ctx ev with
    | Some err => Some err
    | None => firstError ctx rest
    end
  end.

(** ** The spec's names for the errors of validate.go *)

Definition CertificateDecodeError (e : error) : Prop :=
  exists cause, e = WithMessage cause "decoding idp x509 cert".
Definition CertificateParseError (e : error) : Prop :=
  exists cause, e = WithMessage cause "parsing idp x509 cert".
Definition MissingTimestampError (e : error) : Prop :=
  exists cause, e = WithMessage cause "missing timestamp from condition".
Definition ResponseExpiredError : error := New "response expired".
Definition ResponseTooEarlyError : error := New "response too early".
Definition MissingUserIDError : error := New "missing user id".
Definition UnexpectedParentError (parent : string) : error :=
  Errorf "assertion with unexpected parent: " parent.

(** ** What the traversal leaves of the root *)

(** An element at which [NSFindIterate] does not call the handler: its
    prefix resolves, and not to the SAML assertion namespace with the
    local name Assertion. *)
Definition notAssertion {P : Package} {L : Libraries}
    (nsctx : NSContext) (el : located) : Prop :=
  exists ns,
    LookupPrefix nsctx (Space (elem el)) = Ok ns /\
    (ns =? samlAssertionNS) && (Tag (elem el) =? "Assertion") = false.

(** The indices of the parsed tokens that are still children. *)
Fixpoint parsedIndices (cs : list child) : list nat :=
  match cs with
  | [] => []
  | Parsed i _ :: rest => i :: parsedIndices rest
  | Verified _ :: rest => parsedIndices rest
  end.


(** ** A sample of the libraries

    Standard base64, etree's printer, a namespace context that is a list
    of declared prefixes, and what the other libraries answer on the
    sample documents below.  A signature is stood for by a [ds:Signature]
    child whose text names the certificate that made it; it validates
    when that certificate is a trust root, and the validated copy is the
    element without the signature (the enveloped-signature transform). *)

Module Sample.

(** *** encoding/base64 *)

Definition sextet (c : Ascii.ascii) : option nat :=
  let n := Ascii.nat_of_ascii c in
  if Nat.leb 65 n && Nat.leb n 90 then Some (n - 65)
  else if Nat.leb 97 n && Nat.leb n 122 then Some (n - 71)
  else if Nat.leb 48 n && Nat.leb n 57 then Some (n + 4)
  else if Nat.eqb n 43 then Some 62
  else if Nat.eqb n 47 then Some 63
  else None.

Definition isPad (c : Ascii.ascii) : bool := Nat.eqb (Ascii.nat_of_ascii c) 61.

Fixpoint decodeQuanta (s : string) : option string :=
  match s with
  | EmptyString => Some EmptyString
  | String a (String b (String c (String d rest))) =>
    match sextet a, sextet b with
    | Some x, Some y =>
      let b1 := Ascii.ascii_of_nat (x * 4 + y / 16) in
      if isPad c then
        if isPad d && (rest =? "") then Some (String b1 EmptyString)
        else None
      else
        match sextet c with
        | None => None
        | Some z =>
          let b2 := Ascii.ascii_of_nat ((y mod 16) * 16 + z / 4) in
          if isPad d then
            if rest =? "" then Some (String b1 (String b2 EmptyString))
            else None
          else
            match sextet d with
            | None => None
            | Some w =>
              let b3 := Ascii.ascii_of_nat ((z mod 4) * 64 + w) in
              match decodeQuanta rest with
              | None => None
              | Some tail => Some (String b1 (String b2 (String b3 tail)))
              end
            end
        end
    | _, _ => None
    end
  | _ => None
  end.

Definition DecodeString (s : string) : res string bytes :=
  match decodeQuanta s with
  | Some b => Ok b
  | None => Err "illegal base64 data"
  end.

(** *** etree's printer *)

Definition quote : string := String (Ascii.ascii_of_nat 34) EmptyString.

Definition fullTag (space tag : string) : string :=
  if space =? "" then tag else space ++ ":" ++ tag.

Definition printAttr (a : Attr) : string :=
  " " ++ fullTag (attr_Space a) (attr_Key a) ++ "=" ++ quote ++ attr_Value a ++ quote.

Fixpoint printElement (e : Element) : string :=
  match e with
  | mkElement space tag attrs children =>
    "<" ++ fullTag space tag ++ String.concat "" (map printAttr attrs) ++
    match children with
    | [] => "/>"
    | _ =>
      ">" ++
      (fix printTokens (ts : list Token) : string :=
         match ts with
         | [] => ""
         | t :: rest =>
           match t with
           | TokElement c => printElement c
           | TokCharData d => d
           | TokComment d => "<!--" ++ d ++ "-->"
           | TokDirective d => "<!" ++ d ++ ">"
           | TokProcInst target inst => "<?" ++ target ++ " " ++ inst ++ "?>"
           end ++ printTokens rest
         end) children ++
      "</" ++ fullTag space tag ++ ">"
    end
  end.

Definition printToken (t : Token) : string :=
  match t with
  | TokElement c => printElement c
  | TokCharData d => d
  | TokComment d => "<!--" ++ d ++ "-->"
  | TokDirective d => "<!" ++ d ++ ">"
  | TokProcInst target inst => "<?" ++ target ++ " " ++ inst ++ "?>"
  end.

Definition printDocument (d : Document) : bytes :=
  String.concat "" (map printToken (doc_Child d)).

(** *** etreeutils' namespace contexts *)

Definition nsContext : Type := list (string * string).

Definition declare (ctx : nsContext) (a : Attr) : nsContext :=
  if attr_Space a =? "xmlns" then (attr_Key a, attr_Value a) :: ctx
  else if (attr_Space a =? "") && (attr_Key a =? "xmlns")
       then ("", attr_Value a) :: ctx
       else ctx.

Fixpoint lookup (ctx : nsContext) (prefix : string) : option string :=
  match ctx with
  | [] => None
  | (p, ns) :: rest => if p =? prefix then Some ns else lookup rest prefix
  end.

Definition defaultContext : nsContext :=
  [("xml", "http://www.w3.org/XML/1998/namespace");
   ("xmlns", "http://www.w3.org/2000/xmlns/")].

(** *** goxmldsig *)

Definition isSignature (t : Token) : bool :=
  match t with
  | TokElement e => (Space e =? "ds") && (Tag e =? "Signature")
  | _ => false
  end.

Fixpoint text (ts : list Token) : string :=
  match ts with
  | [] => ""
  | TokCharData d :: rest => d ++ text rest
  | _ :: rest => text rest
  end.

Fixpoint signer (ts : list Token) : option string :=
  match ts with
  | [] => None
  | TokElement e :: rest =>
      if isSignature (TokElement e) then Some (text (Child e)) else signer rest
  | _ :: rest => signer rest
  end.

Fixpoint withoutSignature (ts : list Token) : list Token :=
  match ts with
  | [] => []
  | t :: rest => if isSignature t then rest else t :: withoutSignature rest
  end.

Definition validate (ctx : dsig.ValidationContext bytes) (el : Element)
    : res dsig.validation_error Element :=
  match signer (Child el) with
  | None => Err dsig.MissingSignature
  | Some cert =>
    if existsb (String.eqb cert) (dsig.Roots (dsig.CertificateStore ctx))
    then Ok (mkElement (Space el) (Tag el) (Attrs el) (withoutSignature (Child el)))
    else Err (dsig.InvalidSignature
                "Could not verify certificate against trusted certs")
  end.

(** *** The sample documents *)

Definition xmlns (prefix uri : string) : Attr := mkAttr "xmlns" prefix uri.
Definition attr (key value : string) : Attr := mkAttr "" key value.

Definition idpCertificate : bytes := "0idp".
Definition signatureOf (cert : bytes) : Token :=
  TokElement (mkElement "ds" "Signature" [] [TokCharData cert]).

Definition notBefore : string := "2017-05-08T12:00:00Z".
Definition notOnOrAfter : string := "2017-05-08T12:05:00Z".

Definition responseAttrs : list Attr :=
  [xmlns "samlp" "urn:oasis:names:tc:SAML:2.0:protocol";
   xmlns "saml" samlAssertionNS;
   xmlns "ds" "http://www.w3.org/2000/09/xmldsig#";
   attr "ID" "r1"].

Definition assertionBody : list Token :=
  [TokElement (mkElement "saml" "Subject" []
     [TokElement (mkElement "saml" "NameID" [] [TokCharData "alice"])]);
   TokElement (mkElement "saml" "Conditions"
     [attr "NotBefore" notBefore; attr "NotOnOrAfter" notOnOrAfter] [])].

Definition assertion (id : string) (signature : list Token) : Element :=
  mkElement "saml" "Assertion" [attr "ID" id] (signature ++ assertionBody)%list.

(** A response signed at the root by the identity provider. *)
Definition signedResponse : Element :=
  mkElement "samlp" "Response" responseAttrs
    [signatureOf idpCertificate; TokElement (assertion "a1" [])].

(** What validation of [signedResponse] returns. *)
Definition validatedResponse : Element :=
  mkElement "samlp" "Response" responseAttrs [TokElement (assertion "a1" [])].

(** An unsigned response: an unsigned assertion under the root, then a
    signed assertion wrapped in another element. *)
Definition wrappedResponse : Element :=
  mkElement "samlp" "Response" responseAttrs
    [TokElement (assertion "a1" []);
     TokElement (mkElement "samlp" "Extensions" []
       [TokElement (assertion "a2" [signatureOf idpCertificate])])].

(** An unsigned response: a signed assertion under the root, then a
    signed assertion wrapped in another element. *)
Definition nestedResponse : Element :=
  mkElement "samlp" "Response" responseAttrs
    [TokElement (assertion "a1" [signatureOf idpCertificate]);
     TokElement (mkElement "samlp" "Extensions" []
       [TokElement (assertion "a2" [signatureOf idpCertificate])])].

(** An unsigned response with a signed and an unsigned assertion. *)
Definition mixedResponse : Element :=
  mkElement "samlp" "Response" responseAttrs
    [TokElement (assertion "a1" [signatureOf idpCertificate]);
     TokElement (assertion "a2" [])].

(** A document that holds a comment and no element. *)
Definition commentOnly : Document := mkDocument [TokComment " nothing "].

(** *** The structured Response and the rest of the package *)

Record SamlResponse : Type := mkSamlResponse
  { StatusCode : string;
    NameID : string;
    ConditionsNotBefore : string;
    ConditionsNotOnOrAfter : string;
    SignatureValue : string }.

Definition statusSuccess : string := "urn:oasis:names:tc:SAML:2.0:status:Success".
Definition statusRequester : string := "urn:oasis:names:tc:SAML:2.0:status:Requester".

Definition statusOf (info : resp SamlResponse) : res error Z :=
  match response info with
  | Some r =>
    if StatusCode r =? statusSuccess then Ok 0%Z
    else if StatusCode r =? statusRequester then Ok 1%Z
    else Err (New "malformed or missing auth response")
  | None => Err (New "malformed or missing auth response")
  end.

Definition describe (info : resp SamlResponse) : string :=
  match response info with
  | Some r => StatusCode r
  | None => "missing response"
  end.

Definition userOf (info : resp SamlResponse) : string :=
  match response info with
  | Some r => NameID r
  | None => ""
  end.

#[global] Instance package : Package :=
  {| Response := SamlResponse;
     NotBefore := ConditionsNotBefore;
     NotOnOrAfter := ConditionsNotOnOrAfter;
     Success := 0%Z;
     status := statusOf;
     statusDescription := describe;
     UserID := userOf |}.

(** What [xml.Unmarshal] makes of the two printed responses. *)
Definition parsedResponse (signature : string) : SamlResponse :=
  mkSamlResponse statusSuccess "alice" notBefore notOnOrAfter signature.

Definition unmarshalResponse (b : bytes) : res string SamlResponse :=
  if b =? printDocument (mkDocument [TokElement signedResponse])
  then Ok (parsedResponse idpCertificate)
  else if b =? printDocument (mkDocument [TokElement validatedResponse])
  then Ok (parsedResponse "")
  else Err "EOF".

Definition readFromBytes (b : bytes) : res string Document :=
  if b =? "" then Ok (mkDocument [])
  else if b =? printDocument commentOnly then Ok commentOnly
  else if b =? printDocument (mkDocument [TokElement signedResponse])
  then Ok (mkDocument [TokElement signedResponse])
  else Err "XML syntax error".

(** *** Metadata, certificates and time *)

Definition goodMetadata : string :=
  "<EntityDescriptor><IDPSSODescriptor><KeyDescriptor><KeyInfo><X509Data><X509Certificate>MGlkcA==</X509Certificate></X509Data></KeyInfo></KeyDescriptor></IDPSSODescriptor></EntityDescriptor>".

Definition badMetadata : string :=
  "<EntityDescriptor><IDPSSODescriptor><KeyDescriptor><KeyInfo><X509Data><X509Certificate>MGlkcA==</X509Certificate></X509Data></KeyInfo></KeyDescriptor><KeyDescriptor><KeyInfo><X509Data><X509Certificate>bm90IGEgY2VydGlmaWNhdGU=</X509Certificate></X509Data></KeyInfo></KeyDescriptor></IDPSSODescriptor></EntityDescriptor>".

Definition unmarshalMetadata (b : bytes) : res string EntityDescriptor :=
  if b =? goodMetadata
  then Ok (mkEntityDescriptor [mkKeyDescriptor "MGlkcA=="])
  else if b =? badMetadata
  then Ok (mkEntityDescriptor
             [mkKeyDescriptor "MGlkcA=="; mkKeyDescriptor "bm90IGEgY2VydGlmaWNhdGU="])
  else Err "EOF".

(** A DER certificate starts with the byte 0x30, the character 0. *)
Definition parseCertificate (der : bytes) : res string bytes :=
  match der with
  | String c _ => if Nat.eqb (Ascii.nat_of_ascii c) 48 then Ok der
                  else Err "asn1: structure error: tags don't match"
  | EmptyString => Err "asn1: syntax error: sequence truncated"
  end.

Definition second : Z := 1000000000.

(** 2017-05-08 at 11:59:59, 12:00:00, 12:01:40, 12:05:00 and 12:05:01 UTC. *)
Definition beforeWindow : Time := (1494244799 * second)%Z.
Definition windowStart : Time := (1494244800 * second)%Z.
Definition insideWindow : Time := (1494244900 * second)%Z.
Definition windowEnd : Time := (1494245100 * second)%Z.
Definition afterWindow : Time := (1494245101 * second)%Z.

Definition parseTime (s : string) : res string Time :=
  if s =? "2017-05-08T11:59:59Z" then Ok beforeWindow
  else if s =? notBefore then Ok windowStart
  else if s =? notOnOrAfter then Ok windowEnd
  else Err "parsing time: cannot parse".

#[global] Instance libraries : Libraries :=
  {| base64_DecodeString := DecodeString;
     xml_Unmarshal_EntityDescriptor := unmarshalMetadata;
     xml_Unmarshal_Response := unmarshalResponse;
     Certificate := bytes;
     x509_ParseCertificate := parseCertificate;
     time_Parse_RFC3339 := parseTime;
     time_Now := insideWindow;
     ReadFromBytes := readFromBytes;
     WriteToBytes := fun d => Ok (printDocument d);
     NSContext := nsContext;
     DefaultNSContext := defaultContext;
     SubContext := fun ctx el => Ok (fold_left declare (Attrs el) ctx);
     LookupPrefix := fun ctx prefix =>
       match lookup ctx prefix with
       | Some ns => Ok ns
       | None => Err ("undeclared namespace prefix: " ++ prefix)
       end;
     NSDetatch := fun _ el => Ok el;
     Validate := validate |}.

(** *** A validator and the responses it is given *)

Definition trust : dsig.ValidationContext (@Certificate package libraries) :=
  dsig.mkContext (dsig.mkStore [idpCertificate]) None.

(** The validator [NewValidator] builds from [goodMetadata] with a fake
    clock set to [t]. *)
Definition validatorAt (t : Time) : validator :=
  mkValidator
    (Some (dsig.mkContext (dsig.mkStore [idpCertificate])
             (Some (dsig.FakeClockAt t))))
    (Some (dsig.FakeClockAt t))
    (mkEntityDescriptor [mkKeyDescriptor "MGlkcA=="]).

(** The [resp] made from a payload before any validation: it holds what
    the payload decodes to. *)
Definition signedPayload : string :=
  "PHNhbWxwOlJlc3BvbnNlIHhtbG5zOnNhbWxwPSJ1cm46b2FzaXM6bmFtZXM6dGM6U0FNTDoyLjA6cHJvdG9jb2wiIHhtbG5zOnNhbWw9InVybjpvYXNpczpuYW1lczp0YzpTQU1MOjIuMDphc3NlcnRpb24iIHhtbG5zOmRzPSJodHRwOi8vd3d3LnczLm9yZy8yMDAwLzA5L3htbGRzaWcjIiBJRD0icjEiPjxkczpTaWduYXR1cmU+MGlkcDwvZHM6U2lnbmF0dXJlPjxzYW1sOkFzc2VydGlvbiBJRD0iYTEiPjxzYW1sOlN1YmplY3Q+PHNhbWw6TmFtZUlEPmFsaWNlPC9zYW1sOk5hbWVJRD48L3NhbWw6U3ViamVjdD48c2FtbDpDb25kaXRpb25zIE5vdEJlZm9yZT0iMjAxNy0wNS0wOFQxMjowMDowMFoiIE5vdE9uT3JBZnRlcj0iMjAxNy0wNS0wOFQxMjowNTowMFoiLz48L3NhbWw6QXNzZXJ0aW9uPjwvc2FtbHA6UmVzcG9uc2U+".

Definition signedAuth : resp (@Response package) :=
  mkResp (Some (parsedResponse idpCertificate)) signedPayload.

Definition commentPayload : string := "PCEtLSBub3RoaW5nIC0tPg==".

Definition commentAuth : resp (@Response package) :=
  mkResp (Some (parsedResponse "")) commentPayload.

Definition requesterAuth : resp (@Response package) :=
  mkResp (Some (mkSamlResponse statusRequester "" "" "" "")) signedPayload.

End Sample.

(** More sample documents. *)
Module MoreSamples.

Import Sample.

(** An unsigned response whose only assertion is signed: the identity
    provider signed the assertion and not the envelope. *)
Definition assertionSignedResponse : Element :=
  mkElement "samlp" "Response" responseAttrs
    [TokElement (mkElement "samlp" "Status" [] []);
     TokElement (assertion "a1" [signatureOf idpCertificate])].

(** An unsigned response whose assertion is in the SAML 1.0 namespace. *)
Definition foreignAssertion : Element :=
  mkElement "saml1" "Assertion"
    [xmlns "saml1" "urn:oasis:names:tc:SAML:1.0:assertion"; attr "ID" "a1"]
    assertionBody.

Definition foreignResponse : Element :=
  mkElement "samlp" "Response" responseAttrs [TokElement foreignAssertion].

End MoreSamples.

(** ** server/service/client_users.go *)

Module service.

(** [*http.Response]: the status code and the body. *)
Record httpResponse : Type := mkHttpResponse { StatusCode : Z; Body : bytes }.

Definition StatusOK : Z := 200.
Definition StatusNotFound : Z := 404.

(** What client_users.go takes from the rest of the package and from
    package kolide: the client with its method [AuthenticatedDo], the
    payload and user types, [extractServerErrorText], and the three
    response types with the fields the functions read; and from
    encoding/json, [NewDecoder(body).Decode] into each response type.  The
    [Err] field holds an error, of which only its text is used. *)
Class Server : Type :=
  { Client : Type;
    UserPayload : Type;
    User : Type;
    remoteError : Type;
    Error : remoteError -> string;
    AuthenticatedDo :
      Client -> string -> string -> string -> option UserPayload ->
      res error httpResponse;
    extractServerErrorText : bytes -> string;
    createUserResponse : Type;
    createUser_Err : createUserResponse -> option remoteError;
    getUserResponse : Type;
    getUser_User : getUserResponse -> option User;
    getUser_Err : getUserResponse -> option remoteError;
    listUsersResponse : Type;
    listUsers_Users : listUsersResponse -> list User;
    listUsers_Err : listUsersResponse -> option remoteError;
    Decode_createUser : bytes -> res string createUserResponse;
    Decode_getUser : bytes -> res string getUserResponse;
    Decode_listUsers : bytes -> res string listUsersResponse }.

(** The errors the three functions return: the value [notFoundErr{}], or
    an error made by pkg/errors. *)
Inductive clientError : Type :=
| notFoundErr
| wrapped (e : error).

Definition returned (err : option error) : option clientError :=
  match err with
  | None => None
  | Some e => Some (wrapped e)
  end.

(** [%d] of an [int] and of a [uint]. *)
Definition formatInt (n : Z) : string := NilZero.string_of_int (Z.to_int n).
Definition formatUint (n : N) : string := NilEmpty.string_of_uint (N.to_uint n).

(** What a call leaves behind: its results, and whether the deferred
    [response.Body.Close()] ran. *)
Record call (A : Type) : Type := mkCall
  { result : A; failure : option clientError; bodyClosed : bool }.

Section Client.

Context {Srv : Server}.

(** [errors.Errorf(format, status, extractServerErrorText(body))] for a
    format that ends in [%d %s]. *)
Definition statusError (format : string) (response : httpResponse) : error :=
  Errorf format
    (formatInt (StatusCode response) ++ " " ++
     extractServerErrorText (Body response)).

Definition CreateUser (c : Client) (p : UserPayload) : call unit :=
  let verb := "POST" in
  let path := "/api/v1/kolide/users/admin" in
  match AuthenticatedDo c verb path "" (Some p) with
  | Err err => mkCall tt (returned (Wrap (Some err) (verb ++ " " ++ path))) false
  | Ok response =>
    if negb (StatusCode response =? StatusOK)%Z then
      mkCall tt
        (Some (wrapped (statusError "create user received status " response)))
        true
    else
      match Decode_createUser (Body response) with
      | Err msg =>
          mkCall tt
            (returned (Wrap (Some (External msg)) "decode create user response"))
            true
      | Ok responseBody =>
        match createUser_Err responseBody with
        | Some e => mkCall tt (Some (wrapped (Errorf "create user: " (Error e)))) true
        | None => mkCall tt None true
        end
      end
  end.

(** The path [GetUser] formats for [id]. *)
Definition userPath (id : N) : string :=
  "/api/v1/kolide/users/" ++ formatUint id.

Definition GetUser (c : Client) (id : N) : call (option User) :=
  let verb := "GET" in
  let path := userPath id in
  match AuthenticatedDo c verb path "" None with
  | Err err =>
      mkCall None (returned (Wrap (Some err) "GET /api/v1/kolide/users")) false
  | Ok response =>
    if (StatusCode response =? StatusNotFound)%Z then
      mkCall None (Some notFoundErr) true
    else if negb (StatusCode response =? StatusOK)%Z then
      mkCall None
        (Some (wrapped (statusError "get user received status " response)))
        true
    else
      match Decode_getUser (Body response) with
      | Err msg =>
          mkCall None
            (returned (Wrap (Some (External msg)) "decode get user response"))
            true
      | Ok responseBody =>
        match getUser_Err responseBody with
        | Some e => mkCall None (Some (wrapped (Errorf "get user: " (Error e)))) true
        | None => mkCall (getUser_User responseBody) None true
        end
      end
  end.

Definition ListUsers (c : Client) : call (list User) :=
  match AuthenticatedDo c "GET" "/api/v1/kolide/users" "" None with
  | Err err =>
      mkCall [] (returned (Wrap (Some err) "GET /api/v1/kolide/users")) false
  | Ok response =>
    if negb (StatusCode response =? StatusOK)%Z then
      mkCall []
        (Some (wrapped (statusError "list users received status " response)))
        true
    else
      match Decode_listUsers (Body response) with
      | Err msg =>
          mkCall []
            (returned (Wrap (Some (External msg)) "decode list users response"))
            true
      | Ok responseBody =>
        match listUsers_Err responseBody with
        | Some e => mkCall [] (Some (wrapped (Errorf "list users: " (Error e)))) true
        | None => mkCall (listUsers_Users responseBody) None true
        end
      end
  end.

End Client.

End service.

(** ** Properties *)

Section Properties.

Context {P : Package} {L : Libraries}.

(** *** The traversal, flattened *)

Lemma NSTraverse_unfold (St : Type) (handle : NSIterHandler St) ctx at_ up el st :
  NSTraverse ctx at_ up el handle st =
  match SubContext ctx el with
  | Err msg => (Some (External msg), st)
  | Ok ctx' =>
    match handle ctx' (mkLocated at_ up el) st with
    | (Some err, st') => (Some err, st')
    | (None, st') =>
        NSTraverse_children ctx' at_ (Tag el) (Child el) 0 handle st'
    end
  end.
Proof.
  destruct el as [space tag attrs children]; simpl.
  destruct (SubContext ctx _) as [ctx'|msg]; [|reflexivity].
  destruct (handle ctx' _ st) as [[err|] st']; [reflexivity|].
  generalize 0 as i. revert st'.
  induction children as [|t rest IH]; intros st' i; [reflexivity|].
  destruct t; simpl; try apply IH.
  destruct (NSTraverse ctx' (i :: at_) tag e handle st') as [[err|] st''];
    [reflexivity|apply IH].
Qed.

Lemma events_unfold ctx at_ up el :
  events ctx at_ up el =
  match SubContext ctx el with
  | Err msg => [NsFailure msg]
  | Ok ctx' =>
      Visit ctx' (mkLocated at_ up el) ::
      events_children ctx' at_ (Tag el) (Child el) 0
  end.
Proof.
  destruct el as [space tag attrs children]; simpl.
  destruct (SubContext ctx _) as [ctx'|msg]; [|reflexivity].
  f_equal. generalize 0 as i.
  induction children as [|t rest IH]; intros i; [reflexivity|].
  destruct t; simpl; try apply IH.
  f_equal. apply IH.
Qed.

Lemma run_app (St : Type) (handle : NSIterHandler St) evs1 evs2 st :
  run handle (evs1 ++ evs2) st =
  match run handle evs1 st with
  | (Some err, st') => (Some err, st')
  | (None, st') => run handle evs2 st'
  end.
Proof.
  revert st; induction evs1 as [|ev evs1 IH]; intros st; [reflexivity|].
  destruct ev as [nsctx el|msg]; simpl; [|reflexivity].
  destruct (handle nsctx el st) as [[err|] st']; [reflexivity|apply IH].
Qed.

(** [NSTraverse] runs the handler over the events in order and stops at
    the first error. *)
Lemma NSTraverse_run (St : Type) (handle : NSIterHandler St) el :
  forall ctx at_ up st,
    NSTraverse ctx at_ up el handle st = run handle (events ctx at_ up el) st.
Proof.
  induction el as [space tag attrs children IH] using Element_induction.
  intros ctx at_ up st.
  rewrite NSTraverse_unfold, events_unfold.
  destruct (SubContext ctx _) as [ctx'|msg]; [|reflexivity].
  simpl run.
  destruct (handle ctx' _ st) as [[err|] st']; [reflexivity|].
  cbn [Tag Child]. generalize 0 as i. revert st'.
  induction children as [|t rest IHrest]; intros st' i; [reflexivity|].
  destruct t; simpl in IH |- *; try (apply IHrest; exact IH).
  destruct IH as [IHe IHr].
  rewrite run_app, IHe.
  destruct (run handle _ st') as [[err|] st'']; [reflexivity|].
  apply IHrest; exact IHr.
Qed.

(** *** NewValidator *)

Lemma collectRoots_fails_closed (keys : list KeyDescriptor) :
  forall roots key,
    In key keys ->
    match base64_DecodeString (X509CertificateData key) with
    | Err _ => True
    | Ok certData => exists msg, x509_ParseCertificate certData = Err msg
    end ->
    exists e, collectRoots keys roots = Err (None, Some e) /\
              (CertificateDecodeError e \/ CertificateParseError e).
Proof.
  induction keys as [|k rest IH]; intros roots key Hin Hbad; [destruct Hin|].
  simpl.
  destruct (base64_DecodeString (X509CertificateData k)) as [certData|msg] eqn:Hdec.
  - destruct (x509_ParseCertificate certData) as [cert|msg] eqn:Hparse.
    + destruct Hin as [->|Hin].
      * rewrite Hdec in Hbad. destruct Hbad as [msg Hmsg]. congruence.
      * eapply IH; eauto.
    + eexists; split; [reflexivity|]. right. eexists; reflexivity.
  - eexists; split; [reflexivity|]. left. eexists; reflexivity.
Qed.

Lemma collectRoots_all_parsed (keys : list KeyDescriptor) :
  forall roots all,
    collectRoots keys roots = Ok all ->
    exists certs,
      all = (roots ++ certs)%list /\
      Forall2 (fun key cert =>
                 exists certData,
                   base64_DecodeString (X509CertificateData key) = Ok certData /\
                   x509_ParseCertificate certData = Ok cert)
              keys certs.
Proof.
  induction keys as [|k rest IH]; intros roots all H; simpl in H.
  - exists []. rewrite app_nil_r. split; [congruence|constructor].
  - destruct (base64_DecodeString (X509CertificateData k)) as [certData|msg] eqn:Hdec;
      [|discriminate].
    destruct (x509_ParseCertificate certData) as [cert|msg] eqn:Hparse;
      [|discriminate].
    destruct (IH _ _ H) as [certs [-> HF]].
    exists (cert :: certs). rewrite <- app_assoc. split; [reflexivity|].
    constructor; [exists certData; auto|exact HF].
Qed.

(** C6.  If the metadata unmarshals and any key descriptor's certificate
    data fails to base64-decode, or decodes and fails to parse as X.509,
    then [NewValidator] returns no validator and an error, which is a
    CertificateDecodeError or a CertificateParseError, whatever the
    options and the other descriptors are. *)
Theorem NewValidator_fails_closed metadataXML opts md key :
  xml_Unmarshal_EntityDescriptor metadataXML = Ok md ->
  In key (KeyDescriptors md) ->
  match base64_DecodeString (X509CertificateData key) with
  | Err _ => True
  | Ok certData => exists msg, x509_ParseCertificate certData = Err msg
  end ->
  exists e, NewValidator metadataXML opts = (None, Some e) /\
            (CertificateDecodeError e \/ CertificateParseError e).
Proof.
  intros Hmd Hin Hbad. unfold NewValidator. rewrite Hmd.
  destruct (collectRoots_fails_closed (KeyDescriptors md) [] key Hin Hbad)
    as [e [-> He]].
  exists e; split; [reflexivity|exact He].
Qed.

(** The other direction: a validator is returned only when every
    descriptor decoded and parsed, and its trust store holds exactly those
    certificates, in order. *)
Lemma NewValidator_roots metadataXML opts v :
  fst (NewValidator metadataXML opts) = Some v ->
  exists md ctx certs,
    xml_Unmarshal_EntityDescriptor metadataXML = Ok md /\
    context v = Some ctx /\
    dsig.Roots (dsig.CertificateStore ctx) = certs /\
    Forall2 (fun key cert =>
               exists certData,
                 base64_DecodeString (X509CertificateData key) = Ok certData /\
                 x509_ParseCertificate certData = Ok cert)
            (KeyDescriptors md) certs.
Proof.
  unfold NewValidator.
  destruct (xml_Unmarshal_EntityDescriptor metadataXML) as [md|msg]; [|discriminate].
  destruct (collectRoots (KeyDescriptors md) []) as [roots|early] eqn:Hroots.
  - simpl. intros [= <-]. simpl.
    destruct (collectRoots_all_parsed _ _ Hroots) as [certs [-> HF]].
    exists md. eexists. exists certs. repeat split; auto.
  - intros H. exfalso. revert H. clear -Hroots.
    assert (G : forall keys roots,
               collectRoots keys roots = Err early -> fst early = None).
    { induction keys as [|k rest IH]; intros roots H; simpl in H; [discriminate|].
      destruct (base64_DecodeString _); [|injection H as <-; reflexivity].
      destruct (x509_ParseCertificate _); [|injection H as <-; reflexivity].
      eapply IH; eauto. }
    rewrite (G _ _ Hroots). discriminate.
Qed.

(** *** ValidateResponse *)

(** C2, on the code: a response whose window is [t0, t1] is accepted
    when the clock reads exactly [t1], the instant named NotOnOrAfter. *)
Theorem ValidateResponse_accepts_at_NotOnOrAfter v info r t0 t1 :
  response info = Some r ->
  time_Parse_RFC3339 (NotBefore r) = Ok t0 ->
  time_Parse_RFC3339 (NotOnOrAfter r) = Ok t1 ->
  (t0 <= t1)%Z ->
  Now (clock v) = t1 ->
  UserID info <> "" ->
  ValidateResponse v (AuthResp info) = Returns None.
Proof.
  intros Hr H0 H1 Hle Hnow Hid. unfold ValidateResponse.
  rewrite Hr, H1, H0, Hnow. unfold After, Before.
  rewrite Z.ltb_irrefl.
  destruct (Z.ltb_spec t1 t0) as [Hlt|_]; [lia|].
  destruct (String.eqb_spec (UserID info) ""); [contradiction|reflexivity].
Qed.

(** What [ValidateResponse] does strictly inside and outside the window. *)
Lemma ValidateResponse_window v info r t0 t1 :
  response info = Some r ->
  time_Parse_RFC3339 (NotBefore r) = Ok t0 ->
  time_Parse_RFC3339 (NotOnOrAfter r) = Ok t1 ->
  ((t1 < Now (clock v))%Z ->
     ValidateResponse v (AuthResp info) = Returns (Some ResponseExpiredError)) /\
  ((Now (clock v) <= t1)%Z -> (Now (clock v) < t0)%Z ->
     ValidateResponse v (AuthResp info) = Returns (Some ResponseTooEarlyError)) /\
  ((t0 <= Now (clock v) <= t1)%Z -> UserID info = "" ->
     ValidateResponse v (AuthResp info) = Returns (Some MissingUserIDError)) /\
  ((t0 <= Now (clock v) <= t1)%Z -> UserID info <> "" ->
     ValidateResponse v (AuthResp info) = Returns None).
Proof.
  intros Hr H0 H1. unfold ValidateResponse. rewrite Hr, H1, H0.
  unfold After, Before. repeat split.
  - intros H. destruct (Z.ltb_spec t1 (Now (clock v))); [reflexivity|lia].
  - intros Ha Hb. destruct (Z.ltb_spec t1 (Now (clock v))); [lia|].
    destruct (Z.ltb_spec (Now (clock v)) t0); [reflexivity|lia].
  - intros Ha Hb. destruct (Z.ltb_spec t1 (Now (clock v))); [lia|].
    destruct (Z.ltb_spec (Now (clock v)) t0); [lia|].
    rewrite Hb. reflexivity.
  - intros Ha Hb. destruct (Z.ltb_spec t1 (Now (clock v))); [lia|].
    destruct (Z.ltb_spec (Now (clock v)) t0); [lia|].
    destruct (String.eqb_spec (UserID info) ""); [contradiction|reflexivity].
Qed.

(** What [ValidateResponse] does guarantee when it returns no error: the
    argument holds a [*resp] with a Response whose two Conditions
    timestamps parse, the clock reads an instant that is neither after
    NotOnOrAfter nor before NotBefore, and the user identifier is not
    empty; a timestamp that does not parse gives a MissingTimestampError,
    and an empty identifier between the two instants gives the
    MissingUserIDError.  The instant NotOnOrAfter itself is not excluded. *)
Theorem ValidateResponse_accepts_only v auth :
  (ValidateResponse v auth = Returns None ->
   exists info r notBefore onOrAfter,
     auth = AuthResp info /\ response info = Some r /\
     time_Parse_RFC3339 (NotBefore r) = Ok notBefore /\
     time_Parse_RFC3339 (NotOnOrAfter r) = Ok onOrAfter /\
     After (Now (clock v)) onOrAfter = false /\
     Before (Now (clock v)) notBefore = false /\
     UserID info <> "") /\
  (forall info r,
     auth = AuthResp info -> response info = Some r ->
     (exists msg, time_Parse_RFC3339 (NotBefore r) = Err msg) \/
     (exists msg, time_Parse_RFC3339 (NotOnOrAfter r) = Err msg) ->
     exists e, ValidateResponse v auth = Returns (Some e) /\
               MissingTimestampError e) /\
  (forall info r notBefore onOrAfter,
     auth = AuthResp info -> response info = Some r ->
     time_Parse_RFC3339 (NotBefore r) = Ok notBefore ->
     time_Parse_RFC3339 (NotOnOrAfter r) = Ok onOrAfter ->
     After (Now (clock v)) onOrAfter = false ->
     Before (Now (clock v)) notBefore = false ->
     UserID info = "" ->
     ValidateResponse v auth = Returns (Some MissingUserIDError)).
Proof.
  repeat split.
  - unfold ValidateResponse. intros H.
    destruct auth as [info| |]; try discriminate.
    destruct (response info) as [r|] eqn:Hr; [|discriminate].
    destruct (time_Parse_RFC3339 (NotOnOrAfter r)) as [t1|] eqn:H1; [|discriminate].
    destruct (time_Parse_RFC3339 (NotBefore r)) as [t0|] eqn:H0; [|discriminate].
    destruct (After _ t1) eqn:Ha; [discriminate|].
    destruct (Before _ t0) eqn:Hb; [discriminate|].
    destruct (String.eqb_spec (UserID info) "") as [|Hid]; [discriminate|].
    exists info, r, t0, t1. repeat split; auto.
  - intros info r -> Hr Hfail. unfold ValidateResponse. rewrite Hr.
    destruct (time_Parse_RFC3339 (NotOnOrAfter r)) as [t1|msg1] eqn:H1.
    + destruct Hfail as [[msg H0]|[msg H]]; [|discriminate].
      rewrite H0. eexists; split; [reflexivity|]. eexists; reflexivity.
    + eexists; split; [reflexivity|]. eexists; reflexivity.
  - intros info r t0 t1 -> Hr H0 H1 Ha Hb Hid. unfold ValidateResponse.
    rewrite Hr, H1, H0, Ha, Hb, Hid. reflexivity.
Qed.

(** C8, on the code: [ValidateResponse] returns no error although the
    clock is outside the validity window [NotBefore, NotOnOrAfter): with
    timestamps that parse and a user identifier that is not empty, a
    clock that reads exactly NotOnOrAfter is accepted. *)
Theorem ValidateResponse_accepts_outside_window v info r t0 t1 :
  response info = Some r ->
  time_Parse_RFC3339 (NotBefore r) = Ok t0 ->
  time_Parse_RFC3339 (NotOnOrAfter r) = Ok t1 ->
  (t0 <= t1)%Z ->
  Now (clock v) = t1 ->
  UserID info <> "" ->
  ValidateResponse v (AuthResp info) = Returns None /\
  ~ (t0 <= Now (clock v) < t1)%Z.
Proof.
  intros Hr H0 H1 Hle Hnow Hid.
  destruct (ValidateResponse_window v info Hr H0 H1) as [_ [_ [_ Haccept]]].
  split; [apply Haccept; [lia|exact Hid]|lia].
Qed.

(** *** ValidateSignature *)

(** C10.  Both public operations start with the unchecked type assertion
    of [auth] to [*resp]: with an Auth of any other dynamic type, or with a nil
    Auth, each of them panics and returns nothing. *)
Theorem public_operations_panic_unless_resp v dynamicType :
  ValidateSignature v (AuthOther dynamicType) = Panics /\
  ValidateSignature v AuthNil = Panics /\
  ValidateResponse v (AuthOther dynamicType) = Panics /\
  ValidateResponse v AuthNil = Panics.
Proof. repeat split. Qed.

(** A call that returns was given a [*resp]. *)
Lemma ValidateSignature_returns_resp v auth r :
  ValidateSignature v auth = Returns r -> exists info, auth = AuthResp info.
Proof. destruct auth; try discriminate. eauto. Qed.

(** C9.  Whenever [ValidateSignature] returns a non-nil error, the Auth
    it returns is nil and the [resp] it was given is as it was. *)
Theorem ValidateSignature_error_leaves_auth v info r :
  ValidateSignature v (AuthResp info) = Returns r ->
  ret_err r <> None ->
  ret_auth r = None /\ info_after r = info.
Proof.
  unfold ValidateSignature. intros H Herr.
  destruct (status info) as [st|]; [|injection H as <-; auto].
  destruct (negb _); [injection H as <-; auto|].
  destruct (base64_DecodeString _) as [decoded|]; [|injection H as <-; auto].
  destruct (ReadFromBytes decoded) as [doc|]; [|injection H as <-; auto].
  destruct (Root doc) as [elt|]; [|injection H as <-; auto].
  destruct (context v) as [ctx|]; [|discriminate].
  destruct (validateSignature ctx elt) as [[signed|err] children];
    [|injection H as <-; auto].
  destruct (SetRoot _ _ signed) as [signedDoc doc'].
  destruct (WriteToBytes doc') as [buffer|]; [|injection H as <-; auto].
  destruct (xml_Unmarshal_Response buffer) as [response|];
    [|injection H as <-; auto].
  injection H as <-. simpl in Herr. contradiction.
Qed.

(** [setResponse] runs on one path only: a [resp] that changed comes
    back as the returned Auth, with a nil error. *)
Lemma ValidateSignature_setResponse_only_on_success v info r :
  ValidateSignature v (AuthResp info) = Returns r ->
  info_after r = info \/
  (ret_err r = None /\ ret_auth r = Some (AuthResp (info_after r)) /\
   exists response, info_after r = setResponse info response).
Proof.
  unfold ValidateSignature. intros H.
  destruct (status info) as [st|]; [|injection H as <-; auto].
  destruct (negb _); [injection H as <-; auto|].
  destruct (base64_DecodeString _) as [decoded|]; [|injection H as <-; auto].
  destruct (ReadFromBytes decoded) as [doc|]; [|injection H as <-; auto].
  destruct (Root doc) as [elt|]; [|injection H as <-; auto].
  destruct (context v) as [ctx|]; [|discriminate].
  destruct (validateSignature ctx elt) as [[signed|err] children];
    [|injection H as <-; auto].
  destruct (SetRoot _ _ signed) as [signedDoc doc'].
  destruct (WriteToBytes doc') as [buffer|]; [|injection H as <-; auto].
  destruct (xml_Unmarshal_Response buffer) as [response|];
    [|injection H as <-; auto].
  injection H as <-. right. simpl. eauto.
Qed.

(** C3, on the code: when the payload decodes and parses to a document
    with no root element, [ValidateSignature] returns a nil Auth and a nil
    error, because [errors.Wrap] of a nil error is nil. *)
Theorem ValidateSignature_no_root_nil_nil v info decoded doc :
  status info = Ok Success ->
  base64_DecodeString (rawResponse info) = Ok decoded ->
  ReadFromBytes decoded = Ok doc ->
  Root doc = None ->
  ValidateSignature v (AuthResp info) = Returns (mkResult None None info).
Proof.
  intros Hst Hdec Hread Hroot. unfold ValidateSignature.
  rewrite Hst, Z.eqb_refl, Hdec, Hread, Hroot. reflexivity.
Qed.

(** Bytes that do not parse are reported. *)
Lemma ValidateSignature_malformed_xml v info decoded msg :
  status info = Ok Success ->
  base64_DecodeString (rawResponse info) = Ok decoded ->
  ReadFromBytes decoded = Err msg ->
  ValidateSignature v (AuthResp info) =
  Returns (mkResult None
             (Some (WithMessage (External msg) "parsing xml response")) info).
Proof.
  intros Hst Hdec Hread. unfold ValidateSignature.
  rewrite Hst, Z.eqb_refl, Hdec, Hread. reflexivity.
Qed.

(** *** The root element and its document *)

Lemma path_eqb_eq a : forall b, path_eqb a b = true <-> a = b.
Proof.
  induction a as [|i a IH]; intros [|j b]; simpl; split; try congruence.
  - intros H. apply andb_true_iff in H as [Hi Hab].
    apply Nat.eqb_eq in Hi. apply IH in Hab. congruence.
  - intros [= -> ->]. rewrite Nat.eqb_refl. simpl. apply IH. reflexivity.
Qed.

Lemma ptr_eqb_eq p q : ptr_eqb p q = true <-> p = q.
Proof.
  destruct p as [|a], q as [|b]; simpl; split; try congruence.
  - intros H. apply path_eqb_eq in H. congruence.
  - intros [= ->]. apply path_eqb_eq. reflexivity.
Qed.

(** An element whose parent is the root is one of its children. *)
Lemma Parent_is_elt a : Parent a = eltAddr <-> exists i, path a = [i].
Proof.
  unfold Parent, eltAddr. destruct (path a) as [|i up]; split.
  - discriminate.
  - intros [i H]; discriminate.
  - intros [= ->]. eauto.
  - intros [j [= -> ->]]. reflexivity.
Qed.

Lemma tokens_parsedFrom ts : forall i, tokens (parsedFrom i ts) = ts.
Proof.
  induction ts as [|t rest IH]; intros i; simpl; [reflexivity|].
  f_equal. apply IH.
Qed.

Lemma withChildren_parsed elt : withChildren elt (parsed elt) = elt.
Proof.
  destruct elt as [space tag attrs children].
  unfold withChildren, parsed. simpl. rewrite tokens_parsedFrom. reflexivity.
Qed.

Lemma storeRoot_same ts elt : firstElement ts = Some elt -> storeRoot ts elt = ts.
Proof.
  induction ts as [|t rest IH]; simpl; [reflexivity|].
  destruct t; intros H; try (f_equal; apply IH; exact H).
  congruence.
Qed.

Lemma In_parsedFrom ts : forall i k t,
  nth_error ts k = Some t -> In (Parsed (i + k) t) (parsedFrom i ts).
Proof.
  induction ts as [|t0 rest IH]; intros i [|k] t H; simpl in *; try discriminate.
  - injection H as ->. left. f_equal. lia.
  - right. replace (i + S k) with (S i + k) by lia. apply IH. exact H.
Qed.

(** *** validateSignature *)

(** C4.  [validateSignature] returns the validated element at once when
    whole-document validation succeeds; it returns the failure of the
    whole-document validation, with the root element untouched, when that
    failure is anything but the missing-signature error; it returns what
    per-assertion validation decides when the failure is the
    missing-signature error; and the root element itself comes back only
    by that last way. *)
Theorem validateSignature_fallback_gating
    (ctx : dsig.ValidationContext Certificate) (elt : Element) :
  (forall validated,
     Validate ctx elt = Ok validated ->
     validateSignature ctx elt = (Ok (ValidatedCopy validated), parsed elt)) /\
  (forall msg,
     Validate ctx elt = Err (dsig.InvalidSignature msg) ->
     validateSignature ctx elt = (Err (External msg), parsed elt)) /\
  (Validate ctx elt = Err dsig.MissingSignature ->
     validateSignature ctx elt =
     (match fst (validateAssertionSignature ctx elt) with
      | Some err => Err err
      | None => Ok SameAsElt
      end,
      snd (validateAssertionSignature ctx elt))) /\
  (forall children,
     validateSignature ctx elt = (Ok SameAsElt, children) ->
     Validate ctx elt = Err dsig.MissingSignature /\
     validateAssertionSignature ctx elt = (None, children)) /\
  (forall err children,
     validateSignature ctx elt = (Err err, children) ->
     Validate ctx elt <> Err dsig.MissingSignature ->
     exists msg,
       Validate ctx elt = Err (dsig.InvalidSignature msg) /\
       err = External msg /\ children = parsed elt).
Proof.
  unfold validateSignature.
  split; [|split; [|split; [|split]]].
  - intros validated ->. reflexivity.
  - intros msg ->. reflexivity.
  - intros ->. destruct (validateAssertionSignature ctx elt) as [[err|] children];
      reflexivity.
  - intros children.
    destruct (Validate ctx elt) as [validated|[|msg]]; try discriminate.
    destruct (validateAssertionSignature ctx elt) as [[err|] ch];
      [discriminate|].
    intros [= <-]. split; reflexivity.
  - intros err children.
    destruct (Validate ctx elt) as [validated|[|msg]]; try discriminate.
    + intros _ H. contradiction.
    + intros [= <- <-] _. exists msg. repeat split.
Qed.

(** *** ValidateSignature on the whole-document path *)

(** C1, on the code: when whole-document validation succeeds, the stored
    Response is parsed from the bytes of [doc], the document as it was
    received; the validated element goes into [signedDoc] and into
    nothing that is read afterwards. *)
Theorem ValidateSignature_stores_unverified_document
    v info decoded doc elt ctx validated buffer response :
  status info = Ok Success ->
  base64_DecodeString (rawResponse info) = Ok decoded ->
  ReadFromBytes decoded = Ok doc ->
  Root doc = Some elt ->
  context v = Some ctx ->
  Validate ctx elt = Ok validated ->
  WriteToBytes doc = Ok buffer ->
  xml_Unmarshal_Response buffer = Ok response ->
  ValidateSignature v (AuthResp info) =
  Returns (mkResult (Some (AuthResp (setResponse info response))) None
             (setResponse info response)) /\
  signedDocOf doc elt (ValidatedCopy validated) (parsed elt) =
  mkDocument [TokElement validated].
Proof.
  intros Hst Hdec Hread Hroot Hctx Hval Hwrite Hresp. split.
  - unfold ValidateSignature, validateSignature.
    rewrite Hst, Z.eqb_refl, Hdec, Hread, Hroot, Hctx, Hval. simpl.
    rewrite withChildren_parsed, (storeRoot_same _ Hroot).
    destruct doc as [ts]. simpl. rewrite Hwrite, Hresp. reflexivity.
  - reflexivity.
Qed.

(** On every path that stores a Response, the bytes parsed are those of
    [doc] as [SetRoot] left it; [signedDoc], the first component, is not
    read. *)
Lemma ValidateSignature_serializes_doc v info r :
  ValidateSignature v (AuthResp info) = Returns r ->
  ret_err r = None -> ret_auth r <> None ->
  exists decoded doc elt ctx signed children buffer response,
    base64_DecodeString (rawResponse info) = Ok decoded /\
    ReadFromBytes decoded = Ok doc /\
    Root doc = Some elt /\
    context v = Some ctx /\
    validateSignature ctx elt = (Ok signed, children) /\
    WriteToBytes
      (snd (SetRoot NewDocument
              (mkDocument (storeRoot (doc_Child doc) (withChildren elt children)))
              signed)) = Ok buffer /\
    xml_Unmarshal_Response buffer = Ok response /\
    info_after r = setResponse info response.
Proof.
  unfold ValidateSignature. intros H Herr Hauth.
  destruct (status info) as [st|]; [|injection H as <-; discriminate].
  destruct (negb _); [injection H as <-; discriminate|].
  destruct (base64_DecodeString _) as [decoded|] eqn:Hdec;
    [|injection H as <-; discriminate].
  destruct (ReadFromBytes decoded) as [doc|] eqn:Hread;
    [|injection H as <-; discriminate].
  destruct (Root doc) as [elt|] eqn:Hroot; [|injection H as <-; contradiction].
  destruct (context v) as [ctx|] eqn:Hctx; [|discriminate].
  destruct (validateSignature ctx elt) as [[signed|err] children] eqn:Hsig;
    [|injection H as <-; discriminate].
  destruct (SetRoot _ _ signed) as [signedDoc doc'] eqn:Hset.
  destruct (WriteToBytes doc') as [buffer|] eqn:Hwrite;
    [|injection H as <-; discriminate].
  destruct (xml_Unmarshal_Response buffer) as [response|] eqn:Hresp;
    [|injection H as <-; discriminate].
  injection H as <-.
  exists decoded, doc, elt, ctx, signed, children, buffer, response.
  rewrite Hset. simpl. repeat split; auto.
Qed.

(** A whole-document failure other than the missing-signature error
    reaches the caller wrapped, whatever the assertions of the document
    are. *)
Lemma ValidateSignature_hard_failure v info decoded doc elt ctx msg :
  status info = Ok Success ->
  base64_DecodeString (rawResponse info) = Ok decoded ->
  ReadFromBytes decoded = Ok doc ->
  Root doc = Some elt ->
  context v = Some ctx ->
  Validate ctx elt = Err (dsig.InvalidSignature msg) ->
  ValidateSignature v (AuthResp info) =
  Returns (mkResult None
             (Some (WithMessage (External msg) "signing verification failed"))
             info).
Proof.
  intros Hst Hdec Hread Hroot Hctx Hval.
  unfold ValidateSignature, validateSignature.
  rewrite Hst, Z.eqb_refl, Hdec, Hread, Hroot, Hctx, Hval. reflexivity.
Qed.

(** *** validateAssertionSignature *)

#[local] Abbreviation assertionHandler ctx :=
  (findHandler samlAssertionNS "Assertion" (validateAssertion ctx)).

(** The handler's answer at an element does not depend on the children
    the root has at that moment. *)
Lemma handler_verdict ctx nsctx el children :
  fst (assertionHandler ctx nsctx el children) = verdict ctx (Visit nsctx el).
Proof.
  unfold verdict, findHandler, validateAssertion.
  destruct (LookupPrefix nsctx _) as [ns|msg]; [|reflexivity].
  destruct (_ && _); [|reflexivity].
  destruct (negb _); [reflexivity|].
  destruct (NSDetatch nsctx _) as [detached|msg]; [|reflexivity].
  destruct (Validate ctx detached); reflexivity.
Qed.

(** An invocation that answers with an error has not touched the root. *)
Lemma handler_error_keeps_children ctx nsctx el children err :
  fst (assertionHandler ctx nsctx el children) = Some err ->
  snd (assertionHandler ctx nsctx el children) = children.
Proof.
  unfold findHandler, validateAssertion.
  destruct (LookupPrefix nsctx _) as [ns|msg]; [|reflexivity].
  destruct (_ && _); [|reflexivity].
  destruct (negb _); [reflexivity|].
  destruct (NSDetatch nsctx _) as [detached|msg]; [|reflexivity].
  destruct (Validate ctx detached); [discriminate|reflexivity].
Qed.

Lemma In_RemoveChild i t p cs :
  In (Parsed i t) cs -> p <> PElement [i] -> In (Parsed i t) (RemoveChild cs p).
Proof.
  intros Hin Hp. induction cs as [|c rest IH]; [destruct Hin|].
  simpl. destruct (at_addr p c) eqn:Hc.
  - destruct Hin as [->|Hin]; [|exact Hin].
    simpl in Hc. apply ptr_eqb_eq in Hc. contradiction.
  - destruct Hin as [->|Hin]; [left; reflexivity|right; auto].
Qed.

(** An invocation at another address leaves the child at [[i]] in place. *)
Lemma handler_keeps_other_children ctx nsctx el children i t :
  In (Parsed i t) children ->
  path el <> [i] ->
  In (Parsed i t) (snd (assertionHandler ctx nsctx el children)).
Proof.
  intros Hin Hpath. unfold findHandler, validateAssertion.
  destruct (LookupPrefix nsctx _) as [ns|msg]; [|exact Hin].
  destruct (_ && _); [|exact Hin].
  destruct (negb _); [exact Hin|].
  destruct (NSDetatch nsctx _) as [detached|msg]; [|exact Hin].
  destruct (Validate ctx detached) as [signed|e]; [|exact Hin].
  simpl. unfold AddChild. apply in_or_app. left.
  apply In_RemoveChild; [exact Hin|]. unfold addr. congruence.
Qed.

Lemma run_first_error ctx evs : forall children,
  fst (run (assertionHandler ctx) evs children) = firstError ctx evs.
Proof.
  induction evs as [|ev rest IH]; intros children; [reflexivity|].
  destruct ev as [nsctx el|msg]; [|reflexivity].
  simpl run. cbn [firstError]. rewrite <- (handler_verdict ctx nsctx el children).
  destruct (assertionHandler ctx nsctx el children) as [[err|] st'];
    [reflexivity|apply IH].
Qed.

Lemma verdict_not_halted ctx ev : verdict ctx ev <> Some ErrTraversalHalted.
Proof.
  destruct ev as [nsctx el|msg]; [|discriminate].
  unfold verdict, findHandler, validateAssertion.
  destruct (LookupPrefix nsctx _) as [ns|msg]; [|discriminate].
  destruct (_ && _); [|discriminate].
  destruct (negb _); [discriminate|].
  destruct (NSDetatch nsctx _) as [detached|msg]; [|discriminate].
  destruct (Validate ctx detached) as [signed|[|msg]]; discriminate.
Qed.

Lemma firstError_not_halted ctx evs : firstError ctx evs <> Some ErrTraversalHalted.
Proof.
  induction evs as [|ev rest IH]; [discriminate|].
  simpl. destruct (verdict ctx ev) as [err|] eqn:Hev; [|exact IH].
  rewrite <- Hev. apply verdict_not_halted.
Qed.

(** [validateAssertionSignature] returns the error of the first element,
    in document order, at which the traversal or the handler fails, and
    nil when there is none; the children of the root are what the handler
    invocations before that point made of them. *)
Lemma validateAssertionSignature_first_error ctx elt :
  validateAssertionSignature ctx elt =
  (firstError ctx (documentOrder elt),
   snd (run (assertionHandler ctx) (documentOrder elt) (parsed elt))).
Proof.
  unfold validateAssertionSignature, NSFindIterate, documentOrder.
  rewrite NSTraverse_run.
  pose proof (run_first_error ctx (events DefaultNSContext [] documentTag elt)
                (parsed elt)) as Hfst.
  pose proof (firstError_not_halted ctx
                (events DefaultNSContext [] documentTag elt)) as Hnh.
  destruct (run _ _ (parsed elt)) as [[err|] children]; simpl in *;
    rewrite <- Hfst in *; [|reflexivity].
  destruct err; try reflexivity. contradiction Hnh. reflexivity.
Qed.

Lemma firstError_In ctx evs ev err :
  In ev evs -> verdict ctx ev = Some err ->
  exists err', firstError ctx evs = Some err'.
Proof.
  intros Hin Hev. induction evs as [|ev' rest IH]; [destruct Hin|].
  simpl. destruct (verdict ctx ev') as [err'|] eqn:H'; [eauto|].
  destruct Hin as [->|Hin]; [congruence|auto].
Qed.

Lemma firstError_after_passing ctx before ev after :
  Forall (fun ev => verdict ctx ev = None) before ->
  firstError ctx (before ++ ev :: after) =
  match verdict ctx ev with
  | Some err => Some err
  | None => firstError ctx after
  end.
Proof.
  induction 1 as [|ev' rest Hev' _ IH]; [reflexivity|].
  simpl. rewrite Hev'. exact IH.
Qed.

(** The handler's answer at an assertion that is not a child of the
    root, and at a child of the root whose signature does not validate. *)
Lemma verdict_unexpected_parent ctx nsctx a :
  isAssertion nsctx a -> Parent a <> eltAddr ->
  verdict ctx (Visit nsctx a) = Some (UnexpectedParentError (parentTag a)).
Proof.
  intros [Hns Htag] Hparent. unfold verdict, findHandler, validateAssertion.
  rewrite Hns, Htag, !String.eqb_refl. simpl.
  destruct (ptr_eqb (Parent a) eltAddr) eqn:Heq; [|reflexivity].
  apply ptr_eqb_eq in Heq. contradiction.
Qed.

Lemma verdict_invalid_signature ctx nsctx a detached e :
  isAssertion nsctx a -> Parent a = eltAddr ->
  NSDetatch nsctx (elem a) = Ok detached ->
  Validate ctx detached = Err e ->
  verdict ctx (Visit nsctx a) = Some (dsig.as_error e).
Proof.
  intros [Hns Htag] Hparent Hdet Hval.
  unfold verdict, findHandler, validateAssertion.
  rewrite Hns, Htag, !String.eqb_refl. simpl.
  apply ptr_eqb_eq in Hparent. rewrite Hparent. simpl.
  rewrite Hdet, Hval. reflexivity.
Qed.

(** C5.  An element in the SAML assertion namespace with local name
    Assertion whose parent is not the root element makes per-assertion
    validation fail, whatever signature it carries: the handler answers
    it with the UnexpectedParentError that names its parent, and the
    call returns an error.  The traversal stops at the first error in
    document order, so the error returned is that UnexpectedParentError
    when no element before the assertion fails. *)
Theorem misplaced_assertion_rejected ctx elt before nsctx a after :
  documentOrder elt = (before ++ Visit nsctx a :: after)%list ->
  isAssertion nsctx a ->
  Parent a <> eltAddr ->
  (forall children,
     validateAssertion ctx nsctx a children =
     (Some (UnexpectedParentError (parentTag a)), children)) /\
  (exists err, fst (validateAssertionSignature ctx elt) = Some err) /\
  (Validate ctx elt = Err dsig.MissingSignature ->
   exists err, fst (validateSignature ctx elt) = Err err) /\
  (Forall (fun ev => verdict ctx ev = None) before ->
   fst (validateAssertionSignature ctx elt) =
   Some (UnexpectedParentError (parentTag a))).
Proof.
  intros Horder Hassertion Hparent.
  pose proof (verdict_unexpected_parent ctx Hassertion Hparent) as Hv.
  assert (Hfails : exists err, fst (validateAssertionSignature ctx elt) = Some err).
  { rewrite validateAssertionSignature_first_error. simpl.
    eapply firstError_In; [|exact Hv].
    rewrite Horder. apply in_or_app. right. left. reflexivity. }
  split; [|split; [|split]].
  - intros children. unfold validateAssertion.
    destruct (ptr_eqb (Parent a) eltAddr) eqn:Heq; [|reflexivity].
    apply ptr_eqb_eq in Heq. contradiction.
  - exact Hfails.
  - intros Hmissing. destruct Hfails as [err Herr].
    unfold validateSignature. rewrite Hmissing.
    destruct (validateAssertionSignature ctx elt) as [[err'|] children];
      simpl in *; [eauto|discriminate].
  - intros Hbefore. rewrite validateAssertionSignature_first_error. simpl.
    rewrite Horder, (firstError_after_passing ctx _ _ Hbefore), Hv. reflexivity.
Qed.

(** *** Where the children of the root are met *)

Lemma events_children_In ctx at_ up ts ev : forall i,
  In ev (events_children ctx at_ up ts i) ->
  exists k child,
    nth_error ts k = Some (TokElement child) /\
    In ev (events ctx ((i + k) :: at_) up child).
Proof.
  induction ts as [|t rest IH]; intros i Hin; [destruct Hin|].
  assert (Hrest : In ev (events_children ctx at_ up rest (S i)) ->
                  exists k child,
                    nth_error (t :: rest) k = Some (TokElement child) /\
                    In ev (events ctx ((i + k) :: at_) up child)).
  { intros H. destruct (IH _ H) as [k [child [Hk Hev]]].
    exists (S k), child. split; [exact Hk|].
    replace (i + S k) with (S i + k) by lia. exact Hev. }
  destruct t; simpl in Hin; auto.
  apply in_app_or in Hin as [Hin|Hin]; auto.
  exists 0, e. split; [reflexivity|].
  replace (i + 0) with i by lia. exact Hin.
Qed.

(** An event of the traversal of [el] is [el] itself or lies deeper. *)
Lemma events_paths el : forall ctx at_ up nsctx l,
  In (Visit nsctx l) (events ctx at_ up el) ->
  (l = mkLocated at_ up el /\ SubContext ctx el = Ok nsctx) \/
  length at_ < length (path l).
Proof.
  induction el as [space tag attrs children IH] using Element_induction.
  intros ctx at_ up nsctx l. rewrite events_unfold.
  destruct (SubContext ctx _) as [ctx'|msg].
  - intros [Hhead|Hin]; [left; injection Hhead as <- <-; auto|right].
    cbn [Tag Child] in Hin. revert Hin. generalize 0 as i.
    induction children as [|t rest IHrest]; intros i Hin; [destruct Hin|].
    destruct t; simpl in IH, Hin; try (eapply IHrest; eauto; fail).
    destruct IH as [IHe IHr].
    apply in_app_or in Hin as [Hin|Hin]; [|eapply IHrest; eauto].
    destruct (IHe _ _ _ _ _ Hin) as [[-> _]|Hlen]; simpl in *; lia.
  - intros [Hhead|[]]. discriminate.
Qed.

(** The events at the address [[i]] are the visit of the [i]-th token of
    the root. *)
Lemma event_at_child elt nsctx l i :
  In (Visit nsctx l) (documentOrder elt) ->
  path l = [i] ->
  exists ctx0,
    SubContext DefaultNSContext elt = Ok ctx0 /\
    nth_error (Child elt) i = Some (TokElement (elem l)) /\
    l = mkLocated [i] (Tag elt) (elem l) /\
    SubContext ctx0 (elem l) = Ok nsctx.
Proof.
  unfold documentOrder. rewrite events_unfold. intros Hin Hpath.
  destruct (SubContext DefaultNSContext elt) as [ctx0|msg].
  - destruct Hin as [Hhead|Hin].
    + injection Hhead as _ <-. discriminate.
    + apply events_children_In in Hin as [k [child [Hk Hin]]].
      apply events_paths in Hin as [[-> Hsub]|Hlen].
      * simpl in Hpath. injection Hpath as <-. exists ctx0. auto.
      * rewrite Hpath in Hlen. simpl in Hlen. lia.
  - destruct Hin as [Hhead|[]]. discriminate.
Qed.

Lemma run_keeps_child ctx i t evs : forall children,
  In (Parsed i t) children ->
  (forall nsctx l, In (Visit nsctx l) evs -> path l = [i] ->
                   verdict ctx (Visit nsctx l) <> None) ->
  In (Parsed i t) (snd (run (assertionHandler ctx) evs children)).
Proof.
  induction evs as [|ev rest IH]; intros children Hin Hfail; [exact Hin|].
  destruct ev as [nsctx l|msg]; [|exact Hin].
  simpl run.
  pose proof (handler_verdict ctx nsctx l children) as Hv.
  pose proof (handler_error_keeps_children ctx nsctx l children) as Hkeep.
  pose proof (@handler_keeps_other_children ctx nsctx l children i t Hin) as Hother.
  destruct (assertionHandler ctx nsctx l children) as [[err|] children'];
    simpl in *.
  - rewrite (Hkeep err eq_refl). exact Hin.
  - apply IH.
    + apply Hother. intros Hpath.
      apply (Hfail nsctx l); auto.
    + intros nsctx' l' Hin'. apply Hfail. right. exact Hin'.
Qed.

(** C7.  If an assertion that is a child of the root fails its
    individual signature validation, per-assertion validation returns an
    error, and [validateSignature] in fallback mode returns that error
    and no element, whatever the other assertions of the document are:
    there is no outcome that keeps the validly signed ones. *)
Theorem failed_assertion_fails_validation ctx elt nsctx a detached e :
  In (Visit nsctx a) (documentOrder elt) ->
  isAssertion nsctx a ->
  Parent a = eltAddr ->
  NSDetatch nsctx (elem a) = Ok detached ->
  Validate ctx detached = Err e ->
  exists err,
    fst (validateAssertionSignature ctx elt) = Some err /\
    (Validate ctx elt = Err dsig.MissingSignature ->
     fst (validateSignature ctx elt) = Err err).
Proof.
  intros Hin Hassertion Hparent Hdet Hval.
  pose proof (verdict_invalid_signature ctx Hassertion Hparent Hdet Hval) as Hv.
  assert (Hfails : exists err, fst (validateAssertionSignature ctx elt) = Some err).
  { rewrite validateAssertionSignature_first_error. simpl.
    eapply firstError_In; eauto. }
  destruct Hfails as [err Herr]. exists err. split; [exact Herr|].
  intros Hmissing. unfold validateSignature. rewrite Hmissing.
  destruct (validateAssertionSignature ctx elt) as [[err'|] children];
    simpl in *; congruence.
Qed.

(** Where the handler returns: an assertion under the root whose
    validation fails is among the children of the root when the call
    returns. *)
Lemma failed_assertion_left_in_place ctx elt nsctx a detached e :
  In (Visit nsctx a) (documentOrder elt) ->
  isAssertion nsctx a ->
  Parent a = eltAddr ->
  NSDetatch nsctx (elem a) = Ok detached ->
  Validate ctx detached = Err e ->
  exists i, addr a = PElement [i] /\
            In (Parsed i (TokElement (elem a)))
               (snd (validateAssertionSignature ctx elt)).
Proof.
  intros Hin Hassertion Hparent Hdet Hval.
  pose proof (verdict_invalid_signature ctx Hassertion Hparent Hdet Hval) as Hv.
  apply Parent_is_elt in Hparent as [i Hpath]. exists i.
  split; [unfold addr; congruence|].
  destruct (@event_at_child elt nsctx a i Hin Hpath) as [ctx0 [H0 [Hnth [Ha Hsub]]]].
  rewrite validateAssertionSignature_first_error. simpl.
  apply run_keeps_child.
  - apply (In_parsedFrom (Child elt) 0 i). exact Hnth.
  - intros nsctx' l' Hin' Hpath'.
    destruct (@event_at_child elt nsctx' l' i Hin' Hpath') as [ctx1 [H1 [Hnth' [Hl' Hsub']]]].
    assert (l' = a) as ->.
    { rewrite Hl', Ha. f_equal. congruence. }
    assert (nsctx' = nsctx) as -> by congruence.
    rewrite Hv. discriminate.
Qed.

End Properties.

(** ** Further properties of validate.go *)

Section MoreProperties.

Context {P : Package} {L : Libraries}.

#[local] Abbreviation assertionHandler ctx :=
  (findHandler samlAssertionNS "Assertion" (validateAssertion ctx)).

(** *** NewValidator *)

Lemma collectRoots_early (keys : list KeyDescriptor) : forall roots early,
  collectRoots keys roots = Err early -> exists e, early = (None, Some e).
Proof.
  induction keys as [|k rest IH]; intros roots early H; simpl in H; [discriminate|].
  destruct (base64_DecodeString _); [|injection H as <-; eauto].
  destruct (x509_ParseCertificate _); [|injection H as <-; eauto].
  eapply IH; eauto.
Qed.





(** X3.  A validator that [NewValidator] returns has a context and a
    clock, and its context reads the same clock.  The clock is the real
    one when no option is given or when the last option is [Clock(nil)],
    and the clock [c] when the last option is [Clock(c)]. *)
Theorem NewValidator_clock metadataXML opts v :
  fst (NewValidator metadataXML opts) = Some v ->
  exists ctx c,
    context v = Some ctx /\ clock v = Some c /\ dsig.ctx_Clock ctx = Some c /\
    (opts = [] -> c = dsig.RealClock) /\
    (forall before c',
       opts = (before ++ [Clock c'])%list ->
       c = match c' with Some given => given | None => dsig.RealClock end).
Proof.
  unfold NewValidator.
  destruct (xml_Unmarshal_EntityDescriptor metadataXML) as [md|msg];
    [|discriminate].
  destruct (collectRoots (KeyDescriptors md) []) as [roots|early] eqn:Hc.
  - simpl. intros [= <-]. simpl.
    set (v0 := fold_left (fun v opt => opt v) opts (mkValidator None None md)).
    assert (Hlast : forall before c',
               opts = (before ++ [Clock c'])%list -> clock v0 = c').
    { intros before c' ->. unfold v0. rewrite fold_left_app. reflexivity. }
    assert (Hnone : opts = [] -> clock v0 = None).
    { intros ->. reflexivity. }
    destruct (clock v0) as [c|] eqn:Hclock; simpl.
    + rewrite Hclock. eexists. exists c.
      split; [reflexivity|]. split; [reflexivity|]. split; [reflexivity|].
      split.
      * intros H. specialize (Hnone H). discriminate.
      * intros before c' H. rewrite <- (Hlast _ _ H). reflexivity.
    + eexists. exists dsig.RealClock.
      split; [reflexivity|]. split; [reflexivity|]. split; [reflexivity|].
      split; [reflexivity|].
      intros before c' H. rewrite <- (Hlast _ _ H). reflexivity.
  - destruct (collectRoots_early _ _ Hc) as [e ->]. discriminate.
Qed.

(** *** ValidateResponse *)

(** X4.  For a Response whose two timestamps parse, the clock decides
    first and the user identifier last: the result is the expired error
    exactly when the clock is after NotOnOrAfter; the too-early error
    exactly when it is not and the clock is before NotBefore; the
    missing-user error exactly when the clock is inside and the
    identifier is empty; and nil exactly when the clock is inside and the
    identifier is not empty. *)
Theorem ValidateResponse_decision v info r t0 t1 :
  response info = Some r ->
  time_Parse_RFC3339 (NotBefore r) = Ok t0 ->
  time_Parse_RFC3339 (NotOnOrAfter r) = Ok t1 ->
  (ValidateResponse v (AuthResp info) = Returns (Some ResponseExpiredError) <->
   (t1 < Now (clock v))%Z) /\
  (ValidateResponse v (AuthResp info) = Returns (Some ResponseTooEarlyError) <->
   (Now (clock v) <= t1)%Z /\ (Now (clock v) < t0)%Z) /\
  (ValidateResponse v (AuthResp info) = Returns (Some MissingUserIDError) <->
   (t0 <= Now (clock v) <= t1)%Z /\ UserID info = "") /\
  (ValidateResponse v (AuthResp info) = Returns None <->
   (t0 <= Now (clock v) <= t1)%Z /\ UserID info <> "").
Proof.
  intros Hr H0 H1. unfold ValidateResponse. rewrite Hr, H1, H0.
  unfold After, Before, ResponseExpiredError, ResponseTooEarlyError,
    MissingUserIDError, New.
  destruct (Z.ltb_spec t1 (Now (clock v))) as [Ha|Ha];
    [|destruct (Z.ltb_spec (Now (clock v)) t0) as [Hb|Hb];
      [|destruct (String.eqb_spec (UserID info) "") as [Hid|Hid]]];
    repeat split; try discriminate; try lia; try tauto;
    try (intros [? ?]; try lia; congruence).
Qed.

(** *** ValidateSignature *)

(** X6.  [ValidateSignature] never returns an Auth together with an
    error, and it returns neither exactly when the status is Success and
    the payload decodes and parses to a document with no root element. *)
Theorem ValidateSignature_result_pairs v info r :
  ValidateSignature v (AuthResp info) = Returns r ->
  (ret_auth r <> None -> ret_err r = None) /\
  (ret_auth r = None /\ ret_err r = None <->
   status info = Ok Success /\
   exists decoded doc,
     base64_DecodeString (rawResponse info) = Ok decoded /\
     ReadFromBytes decoded = Ok doc /\ Root doc = None).
Proof.
  unfold ValidateSignature. intros H.
  destruct (status info) as [st|e] eqn:Hst.
  2:{ injection H as <-. simpl. split; [congruence|].
      split; [intros [_ ?]; discriminate|intros [? _]; discriminate]. }
  destruct (Z.eqb_spec st Success) as [->|Hne]; simpl in H.
  2:{ injection H as <-. simpl. split; [congruence|].
      split; [intros [_ ?]; discriminate|intros [[= ?] _]; contradiction]. }
  destruct (base64_DecodeString _) as [decoded|msg] eqn:Hdec.
  2:{ injection H as <-. simpl. split; [congruence|].
      split; [intros [_ ?]; discriminate|].
      intros [_ [d [doc [? _]]]]; discriminate. }
  destruct (ReadFromBytes decoded) as [doc|msg] eqn:Hread.
  2:{ injection H as <-. simpl. split; [congruence|].
      split; [intros [_ ?]; discriminate|].
      intros [_ [d [doc [[= <-] [? _]]]]]. congruence. }
  destruct (Root doc) as [elt|] eqn:Hroot.
  2:{ injection H as <-. simpl. split; [congruence|].
      split; [|auto]. intros _. split; [reflexivity|]. eauto. }
  assert (Hroot' : forall d doc0,
             Ok decoded = @Ok string bytes d -> ReadFromBytes d = Ok doc0 ->
             Root doc0 = None -> False).
  { intros d doc0 [= <-] Hd Hn. rewrite Hread in Hd. injection Hd as <-.
    congruence. }
  destruct (context v) as [ctx|]; [|discriminate].
  destruct (validateSignature ctx elt) as [[signed|err] children].
  2:{ injection H as <-. simpl. split; [congruence|].
      split; [intros [_ ?]; discriminate|].
      intros [_ [d [doc0 [Hd [Hr Hn]]]]]. destruct (Hroot' _ _ Hd Hr Hn). }
  destruct (SetRoot _ _ signed) as [signedDoc doc'].
  destruct (WriteToBytes doc') as [buffer|].
  2:{ injection H as <-. simpl. split; [congruence|].
      split; [intros [_ ?]; discriminate|].
      intros [_ [d [doc0 [Hd [Hr Hn]]]]]. destruct (Hroot' _ _ Hd Hr Hn). }
  destruct (xml_Unmarshal_Response buffer) as [response|].
  2:{ injection H as <-. simpl. split; [congruence|].
      split; [intros [_ ?]; discriminate|].
      intros [_ [d [doc0 [Hd [Hr Hn]]]]]. destruct (Hroot' _ _ Hd Hr Hn). }
  injection H as <-. simpl. split; [reflexivity|].
  split; [intros [? _]; discriminate|].
  intros [_ [d [doc0 [Hd [Hr Hn]]]]]. destruct (Hroot' _ _ Hd Hr Hn).
Qed.

(** *** validateAssertionSignature *)

Lemma firstError_None ctx evs :
  firstError ctx evs = None <-> Forall (fun ev => verdict ctx ev = None) evs.
Proof.
  induction evs as [|ev rest IH]; simpl.
  - split; [constructor|reflexivity].
  - destruct (verdict ctx ev) as [err|] eqn:Hev.
    + split; [discriminate|]. intros H. inversion H; congruence.
    + rewrite IH. split; [constructor; assumption|].
      intros H. inversion H; assumption.
Qed.

Lemma firstError_Some ctx evs err :
  firstError ctx evs = Some err ->
  exists before ev after,
    evs = (before ++ ev :: after)%list /\
    Forall (fun ev => verdict ctx ev = None) before /\
    verdict ctx ev = Some err.
Proof.
  induction evs as [|ev rest IH]; simpl; [discriminate|].
  destruct (verdict ctx ev) as [err'|] eqn:Hev.
  - intros [= ->]. exists [], ev, rest. repeat split; auto.
  - intros H. destruct (IH H) as [before [ev' [after [-> [HF Hv]]]]].
    exists (ev :: before), ev', after. repeat split; auto.
Qed.

(** X7.  [validateAssertionSignature] returns nil exactly when no element
    of the document fails, and otherwise the error of the first element
    in document order that fails: the failure to build its namespace
    context or to resolve its prefix, the unexpected-parent error, or the
    failure to detach or to validate it.  No handler error is taken for
    the signal that halts a traversal quietly. *)
Theorem validateAssertionSignature_first_failure ctx elt :
  (fst (validateAssertionSignature ctx elt) = None <->
   Forall (fun ev => verdict ctx ev = None) (documentOrder elt)) /\
  (forall err,
     fst (validateAssertionSignature ctx elt) = Some err <->
     exists before ev after,
       documentOrder elt = (before ++ ev :: after)%list /\
       Forall (fun ev => verdict ctx ev = None) before /\
       verdict ctx ev = Some err) /\
  fst (validateAssertionSignature ctx elt) <> Some ErrTraversalHalted.
Proof.
  rewrite validateAssertionSignature_first_error. simpl.
  split; [apply firstError_None|]. split.
  - intros err. split; [apply firstError_Some|].
    intros [before [ev [after [-> [HF Hv]]]]].
    rewrite (firstError_after_passing ctx _ _ HF), Hv. reflexivity.
  - apply firstError_not_halted.
Qed.

Lemma handler_skips ctx nsctx el children :
  notAssertion nsctx el ->
  assertionHandler ctx nsctx el children = (None, children).
Proof.
  intros [ns [Hns Hno]]. unfold findHandler. rewrite Hns, Hno. reflexivity.
Qed.

Lemma run_skips ctx evs : forall children,
  Forall (fun ev => exists nsctx el, ev = Visit nsctx el /\ notAssertion nsctx el)
         evs ->
  run (assertionHandler ctx) evs children = (None, children).
Proof.
  induction evs as [|ev rest IH]; intros children HF; [reflexivity|].
  inversion HF as [|? ? [nsctx [el [-> Hno]]] Hrest]; subst.
  simpl run. rewrite (handler_skips ctx children Hno). apply IH. exact Hrest.
Qed.

(** X8.  When no element of the document is in the SAML assertion
    namespace with local name Assertion, per-assertion validation
    succeeds without validating any signature and leaves the root as it
    was; [validateSignature] then returns the root element itself when
    the whole-document validation found no signature. *)
Theorem no_assertion_nothing_validated ctx elt :
  Forall (fun ev => exists nsctx el, ev = Visit nsctx el /\ notAssertion nsctx el)
         (documentOrder elt) ->
  validateAssertionSignature ctx elt = (None, parsed elt) /\
  (Validate ctx elt = Err dsig.MissingSignature ->
   validateSignature ctx elt = (Ok SameAsElt, parsed elt)).
Proof.
  intros HF.
  assert (H : validateAssertionSignature ctx elt = (None, parsed elt)).
  { rewrite validateAssertionSignature_first_error.
    rewrite <- (run_first_error ctx (documentOrder elt) (parsed elt)).
    rewrite (run_skips ctx (parsed elt) HF). reflexivity. }
  split; [exact H|].
  intros Hmissing. unfold validateSignature. rewrite Hmissing, H. reflexivity.
Qed.

(** At an assertion that the handler answers with nil, the assertion is
    under the root, its detached copy validated, and the copy took its
    place among the children. *)
Lemma handler_replaces ctx nsctx a children :
  isAssertion nsctx a ->
  verdict ctx (Visit nsctx a) = None ->
  Parent a = eltAddr /\
  exists detached signed,
    NSDetatch nsctx (elem a) = Ok detached /\
    Validate ctx detached = Ok signed /\
    assertionHandler ctx nsctx a children =
    (None, AddChild (RemoveChild children (addr a)) signed).
Proof.
  intros [Hns Htag]. unfold verdict, findHandler, validateAssertion.
  rewrite Hns, Htag, !String.eqb_refl. simpl.
  destruct (ptr_eqb (Parent a) eltAddr) eqn:Hp; [|discriminate]. simpl.
  destruct (NSDetatch nsctx (elem a)) as [detached|msg] eqn:Hdet; [|discriminate].
  destruct (Validate ctx detached) as [signed|e] eqn:Hval; [|discriminate].
  intros _. split; [apply ptr_eqb_eq; exact Hp|].
  exists detached, signed. rewrite Hval. auto.
Qed.

(** X9.  When per-assertion validation succeeds, every Assertion of the
    document in the SAML assertion namespace is a child of the root, and
    its detached copy validated. *)
Theorem accepted_assertions_validated ctx elt nsctx a :
  fst (validateAssertionSignature ctx elt) = None ->
  In (Visit nsctx a) (documentOrder elt) ->
  isAssertion nsctx a ->
  Parent a = eltAddr /\
  exists detached signed,
    NSDetatch nsctx (elem a) = Ok detached /\
    Validate ctx detached = Ok signed.
Proof.
  rewrite validateAssertionSignature_first_error. simpl.
  intros Hnone Hin Hassertion.
  apply firstError_None in Hnone. rewrite Forall_forall in Hnone.
  destruct (handler_replaces ctx [] Hassertion (Hnone _ Hin))
    as [Hparent [detached [signed [Hdet [Hval _]]]]].
  split; [exact Hparent|]. eauto.
Qed.

(** *** The children of the root after the traversal *)

Lemma In_RemoveChild_inv c cs p : In c (RemoveChild cs p) -> In c cs.
Proof.
  induction cs as [|c' rest IH]; simpl; [auto|].
  destruct (at_addr p c'); [auto|].
  intros [->|H]; auto.
Qed.

Lemma parsedIndices_In i t cs : In (Parsed i t) cs -> In i (parsedIndices cs).
Proof.
  induction cs as [|c rest IH]; [auto|].
  intros [->|H]; [left; reflexivity|].
  destruct c; simpl; auto.
Qed.

Lemma parsedIndices_app cs cs' :
  parsedIndices (cs ++ cs') = (parsedIndices cs ++ parsedIndices cs')%list.
Proof.
  induction cs as [|c rest IH]; [reflexivity|].
  destruct c; simpl; rewrite IH; reflexivity.
Qed.

Lemma parsedIndices_parsedFrom ts : forall i,
  parsedIndices (parsedFrom i ts) = seq i (length ts).
Proof.
  induction ts as [|t rest IH]; intros i; simpl; [reflexivity|].
  rewrite IH. reflexivity.
Qed.

Lemma RemoveChild_indices_subset cs p i :
  In i (parsedIndices (RemoveChild cs p)) -> In i (parsedIndices cs).
Proof.
  induction cs as [|c rest IH]; simpl; [auto|].
  destruct (at_addr p c).
  - destruct c; simpl; auto.
  - destruct c; simpl; [intros [->|H]; auto|auto].
Qed.

Lemma RemoveChild_NoDup cs p :
  NoDup (parsedIndices cs) -> NoDup (parsedIndices (RemoveChild cs p)).
Proof.
  induction cs as [|c rest IH]; simpl; [auto|].
  destruct (at_addr p c).
  - destruct c; simpl; [intros H; inversion H; assumption|auto].
  - destruct c; simpl; [|auto].
    intros H. inversion H as [|? ? Hnotin Hnd]; subst.
    constructor; [|auto].
    intros Hin. apply Hnotin. eapply RemoveChild_indices_subset; eauto.
Qed.

(** Removing the child at [[i]] leaves no parsed child with index [i]. *)
Lemma RemoveChild_gone cs i t :
  NoDup (parsedIndices cs) -> ~ In (Parsed i t) (RemoveChild cs (PElement [i])).
Proof.
  induction cs as [|c rest IH]; simpl; [auto|].
  destruct (at_addr (PElement [i]) c) eqn:Hc.
  - destruct c as [j t'|e]; [|discriminate].
    simpl in Hc. apply andb_true_iff in Hc as [Hij _].
    apply Nat.eqb_eq in Hij. subst j.
    simpl. intros Hnd Hin. inversion Hnd as [|? ? Hnotin _]; subst.
    apply Hnotin. eapply parsedIndices_In; eauto.
  - intros Hnd [->|Hin].
    + simpl in Hc. rewrite Nat.eqb_refl in Hc. discriminate.
    + revert Hin. apply IH. destruct c; simpl in Hnd; [|exact Hnd].
      inversion Hnd; assumption.
Qed.

Lemma Verified_not_parsed ts : forall k e, ~ In (Verified e) (parsedFrom k ts).
Proof.
  induction ts as [|t rest IH]; intros k e; simpl; [auto|].
  intros [H|H]; [discriminate|]. eapply IH; eauto.
Qed.

(** One invocation of the handler: the children are untouched, or an
    assertion under the root validated and was replaced by its copy. *)
Lemma handler_step ctx nsctx el children :
  snd (assertionHandler ctx nsctx el children) = children \/
  (isAssertion nsctx el /\ Parent el = eltAddr /\
   exists detached signed,
     NSDetatch nsctx (elem el) = Ok detached /\
     Validate ctx detached = Ok signed /\
     assertionHandler ctx nsctx el children =
     (None, AddChild (RemoveChild children (addr el)) signed)).
Proof.
  unfold findHandler, validateAssertion, isAssertion.
  destruct (LookupPrefix nsctx _) as [ns|msg]; [|left; reflexivity].
  destruct (String.eqb_spec ns samlAssertionNS) as [->|]; [|left; reflexivity].
  destruct (String.eqb_spec (Tag (elem el)) "Assertion") as [Htag|];
    [|left; reflexivity].
  simpl.
  destruct (ptr_eqb (Parent el) eltAddr) eqn:Hp; [|left; reflexivity]. simpl.
  destruct (NSDetatch nsctx _) as [detached|msg]; [|left; reflexivity].
  destruct (Validate ctx detached) as [signed|e] eqn:Hval; [|left; reflexivity].
  right. apply ptr_eqb_eq in Hp. repeat split; auto.
  exists detached, signed. auto.
Qed.

(** What a run of the handler keeps true of the children. *)
Lemma run_invariant ctx (order : list event) (Inv : list child -> Prop) :
  (forall nsctx el children detached signed,
     In (Visit nsctx el) order -> isAssertion nsctx el -> Parent el = eltAddr ->
     NSDetatch nsctx (elem el) = Ok detached ->
     Validate ctx detached = Ok signed ->
     Inv children ->
     Inv (AddChild (RemoveChild children (addr el)) signed)) ->
  forall evs children,
    incl evs order -> Inv children ->
    Inv (snd (run (assertionHandler ctx) evs children)).
Proof.
  intros Hstep. induction evs as [|ev rest IH]; intros children Hincl Hinv;
    [exact Hinv|].
  destruct ev as [nsctx el|msg]; [|exact Hinv].
  simpl run.
  assert (Hin : In (Visit nsctx el) order) by (apply Hincl; left; reflexivity).
  assert (Hrest : incl rest order) by (intros x Hx; apply Hincl; right; exact Hx).
  destruct (handler_step ctx nsctx el children)
    as [Hsame|[Hassertion [Hparent [detached [signed [Hdet [Hval Heq]]]]]]].
  - destruct (assertionHandler ctx nsctx el children) as [[err|] children'];
      simpl in Hsame; subst children'; [exact Hinv|].
    apply IH; assumption.
  - rewrite Heq. apply IH; [assumption|]. eapply Hstep; eauto.
Qed.

(** X10.  The traversal changes the root only by replacing assertions
    that validated.  Every element it adds is the validated copy of an
    Assertion under the root; every other child is a token of the parsed
    root, present at most once; a child that is no Assertion stays; and
    when the call succeeds, no Assertion of the parsed document is left
    among the children. *)
Theorem root_after_traversal ctx elt :
  (forall e,
     In (Verified e) (snd (validateAssertionSignature ctx elt)) ->
     exists nsctx a detached,
       In (Visit nsctx a) (documentOrder elt) /\
       isAssertion nsctx a /\ Parent a = eltAddr /\
       NSDetatch nsctx (elem a) = Ok detached /\
       Validate ctx detached = Ok e) /\
  (forall i t,
     In (Parsed i t) (snd (validateAssertionSignature ctx elt)) ->
     nth_error (Child elt) i = Some t) /\
  NoDup (parsedIndices (snd (validateAssertionSignature ctx elt))) /\
  (forall i t,
     nth_error (Child elt) i = Some t ->
     (forall nsctx a, In (Visit nsctx a) (documentOrder elt) -> path a = [i] ->
                      ~ isAssertion nsctx a) ->
     In (Parsed i t) (snd (validateAssertionSignature ctx elt))) /\
  (fst (validateAssertionSignature ctx elt) = None ->
   forall nsctx a i t,
     In (Visit nsctx a) (documentOrder elt) ->
     isAssertion nsctx a -> path a = [i] ->
     ~ In (Parsed i t) (snd (validateAssertionSignature ctx elt))).
Proof.
  rewrite validateAssertionSignature_first_error. simpl.
  assert (Hparsed : forall i t, In (Parsed i t) (parsed elt) ->
                                nth_error (Child elt) i = Some t).
  { unfold parsed. generalize (Child elt) as ts. intros ts.
    assert (G : forall ts k i t, In (Parsed i t) (parsedFrom k ts) ->
                                 k <= i /\ nth_error ts (i - k) = Some t).
    { clear. induction ts as [|t0 rest IH]; intros k i t; simpl; [tauto|].
      intros [[= <- <-]|H].
      - rewrite Nat.sub_diag. split; [lia|reflexivity].
      - destruct (IH _ _ _ H) as [Hle Hnth]. split; [lia|].
        replace (i - k) with (S (i - S k)) by lia. exact Hnth. }
    intros i t H. destruct (G _ _ _ _ H) as [_ Hnth].
    rewrite Nat.sub_0_r in Hnth. exact Hnth. }
  split; [|split; [|split; [|split]]].
  - apply (@run_invariant ctx (documentOrder elt)
             (fun children => forall e, In (Verified e) children ->
                exists nsctx a detached,
                  In (Visit nsctx a) (documentOrder elt) /\
                  isAssertion nsctx a /\ Parent a = eltAddr /\
                  NSDetatch nsctx (elem a) = Ok detached /\
                  Validate ctx detached = Ok e)).
    + intros nsctx el children detached signed Hin Ha Hp Hdet Hval Hinv e He.
      unfold AddChild in He. apply in_app_or in He as [He|[[= <-]|[]]].
      * apply Hinv. eapply In_RemoveChild_inv; eauto.
      * exists nsctx, el, detached. auto.
    + apply incl_refl.
    + intros e He. destruct (Verified_not_parsed _ _ _ He).
  - apply (@run_invariant ctx (documentOrder elt)
             (fun children => forall i t, In (Parsed i t) children ->
                nth_error (Child elt) i = Some t)).
    + intros nsctx el children detached signed _ _ _ _ _ Hinv i t Hin.
      unfold AddChild in Hin. apply in_app_or in Hin as [Hin|[H|[]]];
        [|discriminate].
      apply Hinv. eapply In_RemoveChild_inv; eauto.
    + apply incl_refl.
    + exact Hparsed.
  - apply (@run_invariant ctx (documentOrder elt)
             (fun children => NoDup (parsedIndices children))).
    + intros nsctx el children detached signed _ _ _ _ _ Hinv.
      unfold AddChild. rewrite parsedIndices_app. simpl. rewrite app_nil_r.
      apply RemoveChild_NoDup. exact Hinv.
    + apply incl_refl.
    + unfold parsed. rewrite parsedIndices_parsedFrom. apply seq_NoDup.
  - intros i t Hnth Hplain.
    apply (@run_invariant ctx (documentOrder elt)
             (fun children => In (Parsed i t) children)).
    + intros nsctx el children detached signed Hin Ha _ _ _ Hinv.
      unfold AddChild. apply in_or_app. left.
      apply In_RemoveChild; [exact Hinv|].
      unfold addr. intros [= Hpath]. exact (Hplain _ _ Hin Hpath Ha).
    + apply incl_refl.
    + apply (In_parsedFrom (Child elt) 0 i). exact Hnth.
  - intros Hnone nsctx a i t Hin Hassertion Hpath.
    apply firstError_None in Hnone.
    apply in_split in Hin as [before [after Horder]].
    rewrite Horder in Hnone |- *.
    apply Forall_app in Hnone as [Hbefore Hrest].
    inversion Hrest as [|? ? Hv Hafter]; subst.
    rewrite run_app.
    pose proof (run_first_error ctx before (parsed elt)) as Hfst.
    rewrite (proj2 (firstError_None ctx before) Hbefore) in Hfst.
    assert (Hnd : NoDup (parsedIndices
                           (snd (run (assertionHandler ctx) before (parsed elt))))).
    { apply (@run_invariant ctx before
               (fun children => NoDup (parsedIndices children))).
      - intros nsctx' el children detached signed _ _ _ _ _ Hinv.
        unfold AddChild. rewrite parsedIndices_app. simpl. rewrite app_nil_r.
        apply RemoveChild_NoDup. exact Hinv.
      - apply incl_refl.
      - unfold parsed. rewrite parsedIndices_parsedFrom. apply seq_NoDup. }
    destruct (run (assertionHandler ctx) before (parsed elt)) as [err1 st1].
    simpl in Hfst, Hnd. subst err1.
    simpl run.
    destruct (handler_replaces ctx st1 Hassertion Hv)
      as [_ [detached [signed [_ [_ Heq]]]]].
    rewrite Heq. intros Hin.
    assert (Hst2 : In (Parsed i t) (AddChild (RemoveChild st1 (addr a)) signed)).
    { revert Hin.
      apply (@run_invariant ctx after
               (fun children => In (Parsed i t) children ->
                  In (Parsed i t) (AddChild (RemoveChild st1 (addr a)) signed))).
      - intros nsctx' el children d' s' _ _ _ _ _ Hinv Hin'.
        apply Hinv. unfold AddChild in Hin'.
        apply in_app_or in Hin' as [Hin'|[H|[]]]; [|discriminate].
        eapply In_RemoveChild_inv; eauto.
      - apply incl_refl.
      - auto. }
    unfold AddChild in Hst2. apply in_app_or in Hst2 as [Hst2|[H|[]]];
      [|discriminate].
    unfold addr in Hst2. rewrite Hpath in Hst2.
    revert Hst2. apply RemoveChild_gone. exact Hnd.
Qed.

End MoreProperties.

(** ** Properties of client_users.go *)

Section ClientProperties.

Import service.

Context {Srv : Server}.

(** X11.  [GetUser] returns the not-found error exactly when the request
    went through and was answered with status 404; it then returns no
    user. *)
Theorem GetUser_not_found c id :
  (failure (GetUser c id) = Some notFoundErr <->
   exists response,
     AuthenticatedDo c "GET" (userPath id) "" None = Ok response /\
     StatusCode response = StatusNotFound) /\
  (failure (GetUser c id) = Some notFoundErr -> result (GetUser c id) = None).
Proof.
  unfold GetUser.
  destruct (AuthenticatedDo c "GET" (userPath id) "" None) as [response|err].
  - destruct (Z.eqb_spec (StatusCode response) StatusNotFound) as [Hnf|Hnf].
    + split; [|reflexivity]. split; [eauto|reflexivity].
    + destruct (negb _).
      * simpl. split; [|discriminate].
        split; [discriminate|intros [rsp [[= <-] H]]; contradiction].
      * destruct (Decode_getUser (Body response)) as [body|msg].
        -- destruct (getUser_Err body) as [e|]; simpl; (split; [|discriminate]);
             (split; [discriminate|intros [rsp [[= <-] H]]; contradiction]).
        -- simpl. split; [|discriminate].
           split; [discriminate|intros [rsp [[= <-] H]]; contradiction].
  - simpl. split; [|discriminate].
    split; [discriminate|intros [rsp [H _]]; discriminate].
Qed.

(** X12.  Each of [CreateUser], [GetUser] and [ListUsers] returns a nil
    error exactly when the request went through, the status is 200, the
    body decodes and the decoded response carries no error; [GetUser] and
    [ListUsers] then return the decoded user and users, and they return
    none with every error. *)
Theorem client_calls_succeed c :
  (forall p,
     failure (CreateUser c p) = None <->
     exists response body,
       AuthenticatedDo c "POST" "/api/v1/kolide/users/admin" "" (Some p)
       = Ok response /\
       StatusCode response = StatusOK /\
       Decode_createUser (Body response) = Ok body /\
       createUser_Err body = None) /\
  (forall id,
     (failure (GetUser c id) = None <->
      exists response body,
        AuthenticatedDo c "GET" (userPath id) "" None = Ok response /\
        StatusCode response = StatusOK /\
        Decode_getUser (Body response) = Ok body /\
        getUser_Err body = None /\
        result (GetUser c id) = getUser_User body) /\
     (failure (GetUser c id) <> None -> result (GetUser c id) = None)) /\
  ((failure (ListUsers c) = None <->
    exists response body,
      AuthenticatedDo c "GET" "/api/v1/kolide/users" "" None = Ok response /\
      StatusCode response = StatusOK /\
      Decode_listUsers (Body response) = Ok body /\
      listUsers_Err body = None /\
      result (ListUsers c) = listUsers_Users body) /\
   (failure (ListUsers c) <> None -> result (ListUsers c) = [])).
Proof.
  split; [|split].
  - intros p. unfold CreateUser.
    destruct (AuthenticatedDo c _ _ _ (Some p)) as [response|err].
    + destruct (Z.eqb_spec (StatusCode response) StatusOK) as [Hok|Hok]; simpl.
      * destruct (Decode_createUser (Body response)) as [body|msg] eqn:Hdec.
        -- destruct (createUser_Err body) as [e|] eqn:He; simpl.
           ++ split; [discriminate|].
              intros [rsp [b [[= <-] [_ [Hb Hnone]]]]]. congruence.
           ++ split; [|reflexivity]. intros _. exists response, body. auto.
        -- simpl. split; [discriminate|].
           intros [rsp [b [[= <-] [_ [Hb _]]]]]. congruence.
      * split; [discriminate|]. intros [rsp [b [[= <-] [H _]]]]. contradiction.
    + simpl. split; [discriminate|]. intros [rsp [b [H _]]]. discriminate.
  - intros id. unfold GetUser.
    destruct (AuthenticatedDo c _ _ _ None) as [response|err].
    + destruct (Z.eqb_spec (StatusCode response) StatusNotFound) as [Hnf|Hnf].
      * simpl. split; [|reflexivity]. split; [discriminate|].
        intros [rsp [b [[= <-] [H _]]]]. rewrite Hnf in H. discriminate.
      * destruct (Z.eqb_spec (StatusCode response) StatusOK) as [Hok|Hok]; simpl.
        -- destruct (Decode_getUser (Body response)) as [body|msg] eqn:Hdec.
           ++ destruct (getUser_Err body) as [e|] eqn:He; simpl.
              ** split; [|reflexivity]. split; [discriminate|].
                 intros [rsp [b [[= <-] [_ [Hb [Hnone _]]]]]]. congruence.
              ** split; [|intros H; contradiction].
                 split; [|reflexivity]. intros _. exists response, body. auto.
           ++ simpl. split; [|reflexivity]. split; [discriminate|].
              intros [rsp [b [[= <-] [_ [Hb _]]]]]. congruence.
        -- split; [|reflexivity]. split; [discriminate|].
           intros [rsp [b [[= <-] [H _]]]]. contradiction.
    + simpl. split; [|reflexivity]. split; [discriminate|].
      intros [rsp [b [H _]]]. discriminate.
  - unfold ListUsers.
    destruct (AuthenticatedDo c _ _ _ None) as [response|err].
    + destruct (Z.eqb_spec (StatusCode response) StatusOK) as [Hok|Hok]; simpl.
      * destruct (Decode_listUsers (Body response)) as [body|msg] eqn:Hdec.
        -- destruct (listUsers_Err body) as [e|] eqn:He; simpl.
           ++ split; [|reflexivity]. split; [discriminate|].
              intros [rsp [b [[= <-] [_ [Hb [Hnone _]]]]]]. congruence.
           ++ split; [|intros H; contradiction].
              split; [|reflexivity]. intros _. exists response, body. auto.
        -- simpl. split; [|reflexivity]. split; [discriminate|].
           intros [rsp [b [[= <-] [_ [Hb _]]]]]. congruence.
      * split; [|reflexivity]. split; [discriminate|].
        intros [rsp [b [[= <-] [H _]]]]. contradiction.
    + simpl. split; [|reflexivity]. split; [discriminate|].
      intros [rsp [b [H _]]]. discriminate.
Qed.

Lemma append_cancel (prefix a b : string) :
  (prefix ++ a)%string = (prefix ++ b)%string -> a = b.
Proof.
  induction prefix as [|ch rest IH]; simpl; [auto|].
  intros [= H]. auto.
Qed.

(** X13.  The path [GetUser] requests determines the id: two ids give
    the same path only when they are equal; and it is never the path that
    [CreateUser] posts to or the path that [ListUsers] gets. *)
Theorem userPath_determines_id (id id' : N) :
  (userPath id = userPath id' <-> id = id') /\
  userPath id <> "/api/v1/kolide/users/admin" /\
  userPath id <> "/api/v1/kolide/users".
Proof.
  split; [|split].
  - split; [|intros ->; reflexivity].
    unfold userPath, formatUint. intros H. apply append_cancel in H.
    apply DecimalN.Unsigned.to_uint_inj.
    assert (Hs : Some (N.to_uint id) = Some (N.to_uint id')).
    { rewrite <- !NilEmpty.usu. f_equal. exact H. }
    congruence.
  - unfold userPath, formatUint. intros H.
    apply (append_cancel "/api/v1/kolide/users/" _ "admin") in H.
    pose proof (NilEmpty.usu (N.to_uint id)) as Hback.
    rewrite H in Hback. discriminate.
  - unfold userPath. simpl. discriminate.
Qed.

End ClientProperties.

(** ** The properties on the sample *)

Module SampleRuns.

Import Sample.

(** [NewValidator] on metadata with one good certificate. *)
Example NewValidator_good t :
  NewValidator goodMetadata [Clock (Some (dsig.FakeClockAt t))] =
  (Some (validatorAt t), None).
Proof. reflexivity. Qed.

(** A response signed at the root, validated inside its window. *)
Example signed_response_accepted :
  ValidateSignature (validatorAt insideWindow) (AuthResp signedAuth) =
  Returns (mkResult (Some (AuthResp signedAuth)) None signedAuth) /\
  ValidateResponse (validatorAt insideWindow) (AuthResp signedAuth) =
  Returns None.
Proof. split; vm_compute; reflexivity. Qed.

(** The second certificate of [badMetadata] decodes and is no
    certificate. *)
Lemma NewValidator_fails_closed_witness :
  exists e,
    NewValidator badMetadata [Clock (Some (dsig.FakeClockAt insideWindow))] = (None, Some e) /\
    (CertificateDecodeError e \/ CertificateParseError e).
Proof.
  apply (@NewValidator_fails_closed _ _ badMetadata
           [Clock (Some (dsig.FakeClockAt insideWindow))]
           (mkEntityDescriptor
              [mkKeyDescriptor "MGlkcA==";
               mkKeyDescriptor "bm90IGEgY2VydGlmaWNhdGU="])
           (mkKeyDescriptor "bm90IGEgY2VydGlmaWNhdGU=")).
  - reflexivity.
  - right; left; reflexivity.
  - cbv. eexists; reflexivity.
Defined.

(** The clock reads the NotOnOrAfter instant of the response. *)
Lemma ValidateResponse_accepts_at_NotOnOrAfter_witness :
  ValidateResponse (validatorAt windowEnd) (AuthResp signedAuth) =
  Returns None.
Proof.
  apply (@ValidateResponse_accepts_at_NotOnOrAfter _ _
           (validatorAt windowEnd) signedAuth
           (parsedResponse idpCertificate)
           windowStart windowEnd).
  - reflexivity.
  - reflexivity.
  - reflexivity.
  - vm_compute. discriminate.
  - reflexivity.
  - discriminate.
Defined.

(** One second later the same response is expired, and one second
    before NotBefore it is too early. *)
Example window_outside :
  ValidateResponse (validatorAt afterWindow) (AuthResp signedAuth) =
  Returns (Some ResponseExpiredError) /\
  ValidateResponse (validatorAt beforeWindow) (AuthResp signedAuth) =
  Returns (Some ResponseTooEarlyError) /\
  ValidateResponse (validatorAt windowStart) (AuthResp signedAuth) =
  Returns None.
Proof. repeat split. Qed.

(** An accepted response has timestamps that parse, a clock inside the
    window and a user. *)
Lemma ValidateResponse_accepts_only_witness :
  exists info r notBefore onOrAfter,
    AuthResp signedAuth = AuthResp info /\ response info = Some r /\
    time_Parse_RFC3339 (NotBefore r) = Ok notBefore /\
    time_Parse_RFC3339 (NotOnOrAfter r) = Ok onOrAfter /\
    After (Now (clock (validatorAt insideWindow))) onOrAfter = false /\
    Before (Now (clock (validatorAt insideWindow))) notBefore = false /\
    UserID info <> "".
Proof.
  apply (proj1 (@ValidateResponse_accepts_only _ _
                  (validatorAt insideWindow) (AuthResp signedAuth))).
  reflexivity.
Defined.

(** The clock reads the NotOnOrAfter instant: accepted, outside the
    half-open window. *)
Lemma ValidateResponse_accepts_outside_window_witness :
  ValidateResponse (validatorAt windowEnd) (AuthResp signedAuth) = Returns None /\
  ~ (windowStart <= Now (clock (validatorAt windowEnd)) < windowEnd)%Z.
Proof.
  apply (@ValidateResponse_accepts_outside_window _ _
           (validatorAt windowEnd) signedAuth
           (parsedResponse idpCertificate)
           windowStart windowEnd).
  - reflexivity.
  - reflexivity.
  - reflexivity.
  - vm_compute. discriminate.
  - reflexivity.
  - discriminate.
Defined.

(** A payload that holds a comment and no element. *)
Lemma ValidateSignature_no_root_nil_nil_witness :
  ValidateSignature (validatorAt insideWindow) (AuthResp commentAuth) =
  Returns (mkResult None None commentAuth).
Proof.
  apply (@ValidateSignature_no_root_nil_nil _ _ (validatorAt insideWindow) commentAuth
           "<!-- nothing -->" commentOnly).
  - reflexivity.
  - reflexivity.
  - reflexivity.
  - reflexivity.
Defined.

(** The same for the empty payload. *)
Example empty_payload_nil_nil :
  ValidateSignature (validatorAt insideWindow) (AuthResp (mkResp (response commentAuth) "")) =
  Returns (mkResult None None (mkResp (response commentAuth) "")).
Proof. reflexivity. Qed.

(** A response whose status is Requester. *)
Lemma ValidateSignature_error_leaves_auth_witness :
  ret_auth (mkResult None
              (Some (Errorf "response status " statusRequester)) requesterAuth)
  = None /\
  info_after (mkResult None
                (Some (Errorf "response status " statusRequester)) requesterAuth)
  = requesterAuth.
Proof.
  apply (@ValidateSignature_error_leaves_auth _ _ (validatorAt insideWindow) requesterAuth).
  - reflexivity.
  - discriminate.
Defined.

(** The response signed at the root: what is stored holds the signature
    of the received document, what [signedDoc] would give does not. *)
Lemma ValidateSignature_stores_unverified_document_witness :
  (ValidateSignature (validatorAt insideWindow) (AuthResp signedAuth) =
   Returns (mkResult
              (Some (AuthResp (setResponse signedAuth (parsedResponse idpCertificate))))
              None
              (setResponse signedAuth (parsedResponse idpCertificate))) /\
   signedDocOf (mkDocument [TokElement signedResponse]) signedResponse
     (ValidatedCopy validatedResponse) (parsed signedResponse) =
   mkDocument [TokElement validatedResponse]) /\
  xml_Unmarshal_Response (printDocument (mkDocument [TokElement validatedResponse]))
  = Ok (parsedResponse "") /\
  parsedResponse idpCertificate <> parsedResponse "".
Proof.
  split; [|split].
  - apply (@ValidateSignature_stores_unverified_document _ _ (validatorAt insideWindow)
             signedAuth
             (printDocument (mkDocument [TokElement signedResponse]))
             (mkDocument [TokElement signedResponse]) signedResponse
             (dsig.mkContext (dsig.mkStore [idpCertificate])
                (Some (dsig.FakeClockAt insideWindow)))
             validatedResponse
             (printDocument (mkDocument [TokElement signedResponse]))
             (parsedResponse idpCertificate)).
    + reflexivity.
    + vm_compute. reflexivity.
    + vm_compute. reflexivity.
    + reflexivity.
    + reflexivity.
    + reflexivity.
    + reflexivity.
    + vm_compute. reflexivity.
  - vm_compute. reflexivity.
  - discriminate.
Defined.

(** In [nestedResponse] the wrapped assertion is the seventh element;
    everything before it passes, and the call fails on it. *)
Lemma misplaced_assertion_rejected_witness :
  (forall children,
     validateAssertion trust
       (fold_left declare responseAttrs defaultContext)
       (mkLocated [0; 1] "Extensions" (assertion "a2" [signatureOf idpCertificate]))
       children =
     (Some (UnexpectedParentError "Extensions"), children)) /\
  (exists err, fst (validateAssertionSignature trust nestedResponse) = Some err) /\
  (Validate trust nestedResponse = Err dsig.MissingSignature ->
   exists err, fst (validateSignature trust nestedResponse) = Err err) /\
  (Forall (fun ev => verdict trust ev = None)
          (firstn 7 (documentOrder nestedResponse)) ->
   fst (validateAssertionSignature trust nestedResponse) =
   Some (UnexpectedParentError "Extensions")).
Proof.
  apply (@misplaced_assertion_rejected _ _ trust nestedResponse
           (firstn 7 (documentOrder nestedResponse))
           (fold_left declare responseAttrs defaultContext)
           (mkLocated [0; 1] "Extensions"
              (assertion "a2" [signatureOf idpCertificate]))
           (skipn 8 (documentOrder nestedResponse))).
  - reflexivity.
  - split; reflexivity.
  - discriminate.
Defined.

(** On [nestedResponse] the error returned is the unexpected-parent
    error, and the first assertion was replaced by its validated copy
    before the traversal reached the wrapped one. *)
Example nested_assertion_unexpected_parent :
  validateAssertionSignature trust nestedResponse =
  (Some (UnexpectedParentError "Extensions"),
   [Parsed 1 (TokElement (mkElement "samlp" "Extensions" []
       [TokElement (assertion "a2" [signatureOf idpCertificate])]));
    Verified (assertion "a1" [])]).
Proof. reflexivity. Qed.

(** C5, as stated, fails on [wrappedResponse]: the assertion wrapped in
    [samlp:Extensions] is in the SAML assertion namespace and its parent
    is not the root, and the call fails with the missing-signature error
    of the unsigned assertion that comes first, which is no
    unexpected-parent error. *)
Lemma misplaced_assertion_other_error :
  documentOrder wrappedResponse =
  (firstn 6 (documentOrder wrappedResponse) ++
   Visit (fold_left declare responseAttrs defaultContext)
     (mkLocated [0; 1] "Extensions" (assertion "a2" [signatureOf idpCertificate]))
   :: skipn 7 (documentOrder wrappedResponse))%list /\
  isAssertion (fold_left declare responseAttrs defaultContext)
    (mkLocated [0; 1] "Extensions" (assertion "a2" [signatureOf idpCertificate])) /\
  Parent (mkLocated [0; 1] "Extensions"
            (assertion "a2" [signatureOf idpCertificate])) <> eltAddr /\
  Validate trust (assertion "a2" [signatureOf idpCertificate]) =
  Ok (assertion "a2" []) /\
  fst (validateAssertionSignature trust wrappedResponse) = Some ErrMissingSignature /\
  forall parent, ErrMissingSignature <> UnexpectedParentError parent.
Proof.
  repeat split; try reflexivity; discriminate.
Qed.

(** In [mixedResponse] the second assertion is unsigned. *)
Lemma failed_assertion_fails_validation_witness :
  exists err,
    fst (validateAssertionSignature trust mixedResponse) = Some err /\
    (Validate trust mixedResponse = Err dsig.MissingSignature ->
     fst (validateSignature trust mixedResponse) = Err err).
Proof.
  apply (@failed_assertion_fails_validation _ _ trust mixedResponse
           (fold_left declare responseAttrs defaultContext)
           (mkLocated [1] "Response" (assertion "a2" []))
           (assertion "a2" []) dsig.MissingSignature).
  - apply (nth_error_In _ 6). reflexivity.
  - split; reflexivity.
  - reflexivity.
  - reflexivity.
  - reflexivity.
Defined.

(** [validateSignature] on [mixedResponse]: the error, and no element,
    although the first assertion validated. *)
Example mixed_response_rejected :
  Validate trust mixedResponse = Err dsig.MissingSignature /\
  Validate trust (assertion "a1" [signatureOf idpCertificate]) =
  Ok (assertion "a1" []) /\
  fst (validateSignature trust mixedResponse) = Err ErrMissingSignature.
Proof. repeat split. Qed.

(** C7, as stated, fails on [mixedResponse]: the unsigned assertion fails
    its validation, the call returns an error, and the children of the
    root at that moment are the unsigned assertion, still in its place,
    and the validated copy of the signed one. *)
Lemma failed_assertion_not_removed :
  nth_error (Child mixedResponse) 1 = Some (TokElement (assertion "a2" [])) /\
  Validate trust (assertion "a2" []) = Err dsig.MissingSignature /\
  validateAssertionSignature trust mixedResponse =
  (Some ErrMissingSignature,
   [Parsed 1 (TokElement (assertion "a2" [])); Verified (assertion "a1" [])]) /\
  In (TokElement (assertion "a2" []))
     (tokens (snd (validateAssertionSignature trust mixedResponse))).
Proof.
  repeat split; try reflexivity. left. reflexivity.
Qed.

End SampleRuns.

(** ** The further properties on the sample *)

Module MoreRuns.

Import Sample MoreSamples.

(** The validator built from [goodMetadata] with a fake clock. *)
Lemma NewValidator_clock_witness :
  exists ctx c,
    context (validatorAt insideWindow) = Some ctx /\
    clock (validatorAt insideWindow) = Some c /\
    dsig.ctx_Clock ctx = Some c /\
    ([Clock (Some (dsig.FakeClockAt insideWindow))] = [] -> c = dsig.RealClock) /\
    (forall before c',
       [Clock (Some (dsig.FakeClockAt insideWindow))] = (before ++ [Clock c'])%list ->
       c = match c' with Some given => given | None => dsig.RealClock end).
Proof.
  apply (@NewValidator_clock _ _ goodMetadata
           [Clock (Some (dsig.FakeClockAt insideWindow))]).
  reflexivity.
Defined.

(** Without options the clock is the real one. *)
Example NewValidator_default_clock :
  NewValidator goodMetadata [] =
  (Some (mkValidator
           (Some (dsig.mkContext (dsig.mkStore [idpCertificate])
                    (Some dsig.RealClock)))
           (Some dsig.RealClock)
           (mkEntityDescriptor [mkKeyDescriptor "MGlkcA=="])),
   None).
Proof. reflexivity. Qed.

(** The signed response, one second after its window. *)
Lemma ValidateResponse_decision_witness :
  (ValidateResponse (validatorAt afterWindow) (AuthResp signedAuth) =
   Returns (Some ResponseExpiredError) <->
   (windowEnd < Now (clock (validatorAt afterWindow)))%Z) /\
  (ValidateResponse (validatorAt afterWindow) (AuthResp signedAuth) =
   Returns (Some ResponseTooEarlyError) <->
   (Now (clock (validatorAt afterWindow)) <= windowEnd)%Z /\
   (Now (clock (validatorAt afterWindow)) < windowStart)%Z) /\
  (ValidateResponse (validatorAt afterWindow) (AuthResp signedAuth) =
   Returns (Some MissingUserIDError) <->
   (windowStart <= Now (clock (validatorAt afterWindow)) <= windowEnd)%Z /\
   UserID signedAuth = "") /\
  (ValidateResponse (validatorAt afterWindow) (AuthResp signedAuth) =
   Returns None <->
   (windowStart <= Now (clock (validatorAt afterWindow)) <= windowEnd)%Z /\
   UserID signedAuth <> "").
Proof.
  apply (@ValidateResponse_decision _ _ (validatorAt afterWindow) signedAuth
           (parsedResponse idpCertificate) windowStart windowEnd).
  - reflexivity.
  - reflexivity.
  - reflexivity.
Defined.

(** The payload that holds a comment: neither result. *)
Lemma ValidateSignature_result_pairs_witness :
  (ret_auth (mkResult None None commentAuth) <> None ->
   ret_err (mkResult None None commentAuth) = None) /\
  (ret_auth (mkResult None None commentAuth) = None /\
   ret_err (mkResult None None commentAuth) = None <->
   status commentAuth = Ok Success /\
   exists decoded doc,
     base64_DecodeString (rawResponse commentAuth) = Ok decoded /\
     ReadFromBytes decoded = Ok doc /\ Root doc = None).
Proof.
  apply (@ValidateSignature_result_pairs _ _ (validatorAt insideWindow) commentAuth).
  reflexivity.
Defined.

(** [foreignResponse] holds an Assertion of another namespace and no
    signature: nothing is validated, and the root comes back. *)
Lemma no_assertion_nothing_validated_witness :
  validateAssertionSignature trust foreignResponse = (None, parsed foreignResponse) /\
  (Validate trust foreignResponse = Err dsig.MissingSignature ->
   validateSignature trust foreignResponse = (Ok SameAsElt, parsed foreignResponse)).
Proof.
  apply (@no_assertion_nothing_validated _ _ trust foreignResponse).
  unfold documentOrder. simpl.
  repeat (apply Forall_cons;
          [do 2 eexists; split; [reflexivity|eexists; split; reflexivity]|]).
  apply Forall_nil.
Defined.

Example foreign_assertion_accepted :
  Validate trust foreignResponse = Err dsig.MissingSignature /\
  validateSignature trust foreignResponse = (Ok SameAsElt, parsed foreignResponse).
Proof. split; reflexivity. Qed.

(** In [assertionSignedResponse] the assertion is the third element. *)
Lemma accepted_assertions_validated_witness :
  Parent (mkLocated [1] "Response" (assertion "a1" [signatureOf idpCertificate]))
  = eltAddr /\
  exists detached signed,
    NSDetatch (fold_left declare responseAttrs defaultContext)
      (elem (mkLocated [1] "Response" (assertion "a1" [signatureOf idpCertificate])))
    = Ok detached /\
    Validate trust detached = Ok signed.
Proof.
  apply (@accepted_assertions_validated _ _ trust assertionSignedResponse
           (fold_left declare responseAttrs defaultContext)
           (mkLocated [1] "Response" (assertion "a1" [signatureOf idpCertificate]))).
  - reflexivity.
  - apply (nth_error_In _ 2). reflexivity.
  - split; reflexivity.
Defined.

(** The assertion is replaced by its validated copy, which comes after
    the status element. *)
Example assertion_replaced :
  validateAssertionSignature trust assertionSignedResponse =
  (None,
   [Parsed 0 (TokElement (mkElement "samlp" "Status" [] []));
    Verified (assertion "a1" [])]).
Proof. reflexivity. Qed.

End MoreRuns.
